(** * pycairo, [cairo/error.c]: status codes turned into Python exceptions

    A shallow embedding of [cairo/error.c] over a small model of the part
    of the CPython runtime the file talks to: a heap of objects addressed
    by pointers, the per-thread error indicator, reference counts, and a
    schedule of allocation faults so that the [NULL] results of the C API
    can be exercised.

    Layout of the development:
    - pointers, objects, interpreter state;
    - the monad of C computations (a computation may hit undefined
      behaviour, e.g. by dereferencing [NULL]);
    - the C API of the host (modelled after CPython's documentation);
    - the functions of [error.c], in the order of the source;
    - lemmas on the host model, then the properties of [error.c]:
      the status translator, the constructor, the [status] attribute
      and the string form first, then reference counts and the hooks
      of the cyclic collector. *)

From Stdlib Require Import ZArith String List Lia.
From stdpp Require Import base option list gmap.

Local Open Scope Z_scope.

(* ------------------------------------------------------------------ *)
(** ** Pointers and status codes *)

(** A non-null address.  [PyObject *] is [option addr], [NULL] is [None]. *)
Abbreviation addr := positive.
Abbreviation ptr := (option positive).
Abbreviation NULL := (@None positive).

(** [cairo_status_t] is a C enum; [Error._check_status] feeds any C int
    into [Pycairo_Check_Status], so a status is an integer.  The values
    are those of [cairo.h]. *)
Definition cairo_status_t := Z.
Definition CAIRO_STATUS_SUCCESS : cairo_status_t := 0.
Definition CAIRO_STATUS_NO_MEMORY : cairo_status_t := 1.
Definition CAIRO_STATUS_INVALID_RESTORE : cairo_status_t := 2.
Definition CAIRO_STATUS_INVALID_POP_GROUP : cairo_status_t := 3.
Definition CAIRO_STATUS_READ_ERROR : cairo_status_t := 10.
Definition CAIRO_STATUS_WRITE_ERROR : cairo_status_t := 11.

(* ------------------------------------------------------------------ *)
(** ** Objects *)

(** Which C struct the instances of a type have (what [tp_basicsize] and
    the solid base stand for). *)
Inductive layout :=
| Lobject | Lunicode | Llong | Ltuple | Ldict | Ltype
| LBaseException | LOSError | LPycairoError.

(** The [tp_new] and [tp_init] slots.  A slot of the host that this file
    never reaches is [new_host] / [init_host]. *)
Inductive newfunc := new_BaseException | new_host.
Inductive initproc := init_BaseException | init_error | init_host.

(** Of [tp_flags] the model keeps the one bit the type constructor
    tests, [Py_TPFLAGS_BASETYPE] ([tp_basetype]).  The dictionary of a
    type belongs to the host, which fills it when it readies the type;
    the model keeps the one fact the type constructor needs of the
    dictionaries of the bases: whether the type binds [__init__] itself
    ([tp_dict_init]), as a static type does whose definition sets
    [tp_init]. *)
Record PyTypeObject := {
  tp_name : string;
  tp_layout : layout;
  tp_basetype : bool;
  tp_new : newfunc;
  tp_init : initproc;
  tp_base : ptr;
  tp_bases : list addr;
  tp_mro : list addr;
  tp_dict_init : bool
}.

(** The object fields of the host's [PyBaseExceptionObject]
    ([PyException_HEAD]): the instance dictionary, the arguments, the
    notes (a field of CPython 3.11 and later; [NULL] throughout on an
    earlier host), the traceback and the two links to other exceptions. *)
Record PyBaseExceptionObject := {
  dict : ptr;
  args : ptr;
  notes : ptr;
  traceback : ptr;
  context : ptr;
  cause : ptr
}.

(** [typedef struct { PyBaseExceptionObject base; PyObject *status; }
    PycairoErrorObject;] *)
Record PycairoErrorObject := {
  base : PyBaseExceptionObject;
  status : ptr
}.

Inductive payload :=
| ob_none
| ob_unicode (text : string)
| ob_long (ob_ival : Z)
| ob_tuple (ob_item : list addr)
| ob_dict (entries : list (addr * addr))
| ob_typeobject (t : PyTypeObject)
| ob_exception (e : PyBaseExceptionObject)
| ob_error (e : PycairoErrorObject).

Record object := { ob_type : addr; ob_data : payload }.

(* ------------------------------------------------------------------ *)
(** ** Interpreter state *)

(** [heap] holds the live objects, [ob_refcnt] their reference counts
    (kept apart from the object so that a count change leaves the fields
    alone; reclamation at count zero is the host's business and is not
    modelled), [curexc_type]/[curexc_value] are the error indicator of
    the thread state, [faults] says which of the coming allocations fail
    ([true] = fails; the empty schedule never fails). *)
Record state := {
  heap : gmap positive object;
  ob_refcnt : gmap positive Z;
  next_addr : addr;
  curexc_type : ptr;
  curexc_value : ptr;
  faults : list bool
}.

Definition set_heap (h : gmap positive object) (s : state) : state :=
  {| heap := h; ob_refcnt := ob_refcnt s; next_addr := next_addr s;
     curexc_type := curexc_type s; curexc_value := curexc_value s;
     faults := faults s |}.

Definition set_refcnt (r : gmap positive Z) (s : state) : state :=
  {| heap := heap s; ob_refcnt := r; next_addr := next_addr s;
     curexc_type := curexc_type s; curexc_value := curexc_value s;
     faults := faults s |}.

Definition set_curexc (t v : ptr) (s : state) : state :=
  {| heap := heap s; ob_refcnt := ob_refcnt s; next_addr := next_addr s;
     curexc_type := t; curexc_value := v; faults := faults s |}.

Definition set_faults (f : list bool) (s : state) : state :=
  {| heap := heap s; ob_refcnt := ob_refcnt s; next_addr := next_addr s;
     curexc_type := curexc_type s; curexc_value := curexc_value s;
     faults := f |}.

(* ------------------------------------------------------------------ *)
(** ** C computations *)

(** A call either returns a value in a new state or has no defined
    behaviour (a [NULL] or dangling pointer was dereferenced, a macro was
    used outside its precondition). *)
Inductive outcome (A : Type) :=
| Returned (a : A) (s : state)
| Undefined.
Arguments Returned {A}.
Arguments Undefined {A}.

Definition M (A : Type) := state -> outcome A.

Definition ret {A} (a : A) : M A := fun s => Returned a s.
Definition bind {A B} (m : M A) (k : A -> M B) : M B :=
  fun s => match m s with
           | Returned a s' => k a s'
           | Undefined => Undefined
           end.
Definition undefined {A} : M A := fun _ => Undefined.
Definition gets {A} (f : state -> A) : M A := fun s => Returned (f s) s.
Definition modify (f : state -> state) : M unit := fun s => Returned tt (f s).

Declare Scope c_scope.
Delimit Scope c_scope with C.
Notation "x <- c1 ;; c2" := (bind c1 (fun x => c2))
  (at level 100, c1 at next level, right associativity) : c_scope.
Notation "c1 ;; c2" := (bind c1 (fun _ => c2))
  (at level 100, right associativity) : c_scope.
Local Open Scope c_scope.

(** [*p]: the object a pointer refers to. *)
Definition deref (p : ptr) : M object :=
  fun s => match p with
           | Some a => match heap s !! a with
                       | Some o => Returned o s
                       | None => Undefined
                       end
           | None => Undefined
           end.

Definition store (a : addr) (o : object) : M unit :=
  modify (fun s => set_heap (<[a := o]> (heap s)) s).

(* ------------------------------------------------------------------ *)
(** ** The static objects of the host and of the module *)

Definition Py_None : addr := 1%positive.
Definition PyBaseObject_Type : addr := 2%positive.
Definition PyType_Type : addr := 3%positive.
Definition _PyNone_Type : addr := 4%positive.
Definition PyUnicode_Type : addr := 5%positive.
Definition PyLong_Type : addr := 6%positive.
Definition PyTuple_Type : addr := 7%positive.
Definition PyDict_Type : addr := 8%positive.
Definition PyExc_BaseException : addr := 9%positive.
Definition PyExc_Exception : addr := 10%positive.
Definition PyExc_TypeError : addr := 11%positive.
Definition PyExc_SystemError : addr := 12%positive.
Definition PyExc_MemoryError : addr := 13%positive.
(** In Python 3 [PyExc_IOError] is an alias of [PyExc_OSError]. *)
Definition PyExc_IOError : addr := 14%positive.
Definition PycairoError_Type : addr := 15%positive.
Definition Pycairo_Status_Type : addr := 16%positive.
Definition first_free : addr := 17%positive.

(** A finalized static type that can be subclassed.  [own] says
    whether its definition sets [tp_init], so that [PyType_Ready] has
    put [__init__] into its dictionary. *)
Definition static_type (name : string) (l : layout) (n : newfunc)
    (i : initproc) (own : bool) (b : ptr) (mro : list addr) : object :=
  {| ob_type := PyType_Type;
     ob_data := ob_typeobject
       {| tp_name := name; tp_layout := l; tp_basetype := true;
          tp_new := n; tp_init := i;
          tp_base := b; tp_bases := from_option (fun x => [x]) [] b;
          tp_mro := mro; tp_dict_init := own |} |}.

(** The same without [Py_TPFLAGS_BASETYPE]. *)
Definition final_type (name : string) (l : layout) (n : newfunc)
    (i : initproc) (own : bool) (b : ptr) (mro : list addr) : object :=
  {| ob_type := PyType_Type;
     ob_data := ob_typeobject
       {| tp_name := name; tp_layout := l; tp_basetype := false;
          tp_new := n; tp_init := i;
          tp_base := b; tp_bases := from_option (fun x => [x]) [] b;
          tp_mro := mro; tp_dict_init := own |} |}.

Definition exception_mro : list addr :=
  [PyExc_Exception; PyExc_BaseException; PyBaseObject_Type].

(** [PycairoError_Type] as [error_get_type] leaves it: the static
    initializer of the source gives the name, the size of
    [PycairoErrorObject] and [error_init] for [tp_init]; [error_get_type]
    binds [tp_base] to [PyExc_Exception] and [PyType_Ready] fills in the
    rest ([tp_new] is inherited from the base).  Its flags include
    [Py_TPFLAGS_BASETYPE]. *)
Definition PycairoError_Type_object : object :=
  static_type "cairo.Error" LPycairoError new_BaseException init_error
    true (Some PyExc_Exception) (PycairoError_Type :: exception_mro).

Definition static_objects : list (addr * object) :=
  [ (Py_None, {| ob_type := _PyNone_Type; ob_data := ob_none |});
    (PyBaseObject_Type,
      static_type "object" Lobject new_host init_host true NULL
        [PyBaseObject_Type]);
    (PyType_Type,
      static_type "type" Ltype new_host init_host true
        (Some PyBaseObject_Type) [PyType_Type; PyBaseObject_Type]);
    (_PyNone_Type,
      final_type "NoneType" Lobject new_host init_host false
        (Some PyBaseObject_Type) [_PyNone_Type; PyBaseObject_Type]);
    (PyUnicode_Type,
      static_type "str" Lunicode new_host init_host false
        (Some PyBaseObject_Type) [PyUnicode_Type; PyBaseObject_Type]);
    (PyLong_Type,
      static_type "int" Llong new_host init_host false
        (Some PyBaseObject_Type) [PyLong_Type; PyBaseObject_Type]);
    (PyTuple_Type,
      static_type "tuple" Ltuple new_host init_host false
        (Some PyBaseObject_Type) [PyTuple_Type; PyBaseObject_Type]);
    (PyDict_Type,
      static_type "dict" Ldict new_host init_host true
        (Some PyBaseObject_Type) [PyDict_Type; PyBaseObject_Type]);
    (PyExc_BaseException,
      static_type "BaseException" LBaseException new_BaseException
        init_BaseException true (Some PyBaseObject_Type)
        [PyExc_BaseException; PyBaseObject_Type]);
    (PyExc_Exception,
      static_type "Exception" LBaseException new_BaseException
        init_BaseException true (Some PyExc_BaseException) exception_mro);
    (PyExc_TypeError,
      static_type "TypeError" LBaseException new_BaseException
        init_BaseException true (Some PyExc_Exception)
        (PyExc_TypeError :: exception_mro));
    (PyExc_SystemError,
      static_type "SystemError" LBaseException new_BaseException
        init_BaseException true (Some PyExc_Exception)
        (PyExc_SystemError :: exception_mro));
    (PyExc_MemoryError,
      static_type "MemoryError" LBaseException new_BaseException
        init_BaseException true (Some PyExc_Exception)
        (PyExc_MemoryError :: exception_mro));
    (PyExc_IOError,
      static_type "OSError" LOSError new_host init_host true
        (Some PyExc_Exception) (PyExc_IOError :: exception_mro));
    (PycairoError_Type, PycairoError_Type_object);
    (Pycairo_Status_Type,
      static_type "cairo.Status" Llong new_host init_host false
        (Some PyLong_Type)
        [Pycairo_Status_Type; PyLong_Type; PyBaseObject_Type]) ].

Definition static_heap : gmap positive object := list_to_map static_objects.

(** The interpreter once the module is initialised, nothing pending. *)
Definition initial_state (f : list bool) : state :=
  {| heap := static_heap; ob_refcnt := (fun _ => 1) <$> static_heap;
     next_addr := first_free; curexc_type := NULL; curexc_value := NULL;
     faults := f |}.

(* ------------------------------------------------------------------ *)
(** ** The C API of the host: reference counts and the error indicator *)

Definition bump (d : Z) (a : addr) (r : gmap positive Z) : gmap positive Z :=
  <[a := default 0 (r !! a) + d]> r.

Definition add_ref (d : Z) (p : ptr) : M unit :=
  fun s => match p with
           | Some a =>
               match heap s !! a with
               | Some _ => Returned tt (set_refcnt (bump d a (ob_refcnt s)) s)
               | None => Undefined
               end
           | None => Undefined
           end.

Definition Py_INCREF : ptr -> M unit := add_ref 1.
Definition Py_DECREF : ptr -> M unit := add_ref (-1).
Definition Py_XINCREF (p : ptr) : M unit :=
  if p is Some _ then Py_INCREF p else ret tt.
Definition Py_XDECREF (p : ptr) : M unit :=
  if p is Some _ then Py_DECREF p else ret tt.

Definition Py_TYPE (p : ptr) : M ptr :=
  o <- deref p ;; ret (Some (ob_type o)).

Definition PyErr_Occurred : M ptr := gets curexc_type.

(** [PyErr_SetObject]: the indicator takes a reference to the type and
    to the value and drops what it held.  (Every type this file passes is
    an exception class, so that check of the host is left out.) *)
Definition PyErr_SetObject (exception value : ptr) : M unit :=
  Py_XINCREF value ;;
  Py_XINCREF exception ;;
  oldtype <- gets curexc_type ;;
  oldvalue <- gets curexc_value ;;
  modify (set_curexc exception value) ;;
  Py_XDECREF oldtype ;;
  Py_XDECREF oldvalue.

Definition PyErr_NoMemory : M ptr :=
  PyErr_SetObject (Some PyExc_MemoryError) NULL ;; ret NULL.

(** Allocation of a fresh object with one reference; consumes one entry
    of the fault schedule, and fails with [MemoryError] when it says so. *)
Definition take_fault : M bool :=
  fun s => match faults s with
           | b :: f => Returned b (set_faults f s)
           | [] => Returned false s
           end.

Definition fresh (o : object) : M ptr :=
  fun s => let a := next_addr s in
           Returned (Some a)
             {| heap := <[a := o]> (heap s);
                ob_refcnt := <[a := 1]> (ob_refcnt s);
                next_addr := Pos.succ a;
                curexc_type := curexc_type s;
                curexc_value := curexc_value s;
                faults := faults s |}.

Definition PyObject_New (t : addr) (d : payload) : M ptr :=
  fails <- take_fault ;;
  if fails : bool then PyErr_NoMemory
  else fresh {| ob_type := t; ob_data := d |}.

Definition PyUnicode_FromString (u : string) : M ptr :=
  PyObject_New PyUnicode_Type (ob_unicode u).

Definition PyErr_SetString (exception : addr) (msg : string) : M unit :=
  value <- PyUnicode_FromString msg ;;
  if value is Some _ then
    PyErr_SetObject (Some exception) value ;;
    Py_DECREF value
  else ret tt.

Definition PyDict_New : M ptr := PyObject_New PyDict_Type (ob_dict []).

(* ------------------------------------------------------------------ *)
(** ** The C API of the host: tuples and [Py_BuildValue] *)

(** The macros read the tuple without any check: anything but a tuple
    behind the pointer, or an index out of range, is undefined. *)
Definition PyTuple_GET_SIZE (p : ptr) : M Z :=
  o <- deref p ;;
  match ob_data o with
  | ob_tuple items => ret (Z.of_nat (length items))
  | _ => undefined
  end.

Definition PyTuple_GET_ITEM (p : ptr) (i : nat) : M ptr :=
  o <- deref p ;;
  match ob_data o with
  | ob_tuple items =>
      match items !! i with
      | Some a => ret (Some a)
      | None => undefined
      end
  | _ => undefined
  end.

(** The pointers of a list when none of them is [NULL]. *)
Fixpoint non_null (l : list ptr) : option (list addr) :=
  match l with
  | [] => Some []
  | Some a :: r => option_map (cons a) (non_null r)
  | None :: _ => None
  end.

Fixpoint for_each (f : ptr -> M unit) (l : list ptr) : M unit :=
  match l with
  | [] => ret tt
  | p :: r => f p ;; for_each f r
  end.

(** The converter [O]: a new reference to the argument; a [NULL]
    argument makes the whole call fail, with [SystemError] unless an
    exception is pending already. *)
Definition build_O (o : ptr) : M ptr :=
  match o with
  | Some _ => Py_INCREF o ;; ret o
  | None =>
      pending <- PyErr_Occurred ;;
      (if pending is Some _ then ret tt
       else PyErr_SetString PyExc_SystemError
              "NULL object passed to Py_BuildValue") ;;
      ret NULL
  end.

(** A parenthesised group: the tuple of the items built so far; the
    items are released when one of them, or the tuple, could not be
    built. *)
Definition build_tuple (items : list ptr) : M ptr :=
  match non_null items with
  | Some l =>
      v <- PyObject_New PyTuple_Type (ob_tuple l) ;;
      (if v is Some _ then ret tt else for_each Py_XDECREF items) ;;
      ret v
  | None => for_each Py_XDECREF items ;; ret NULL
  end.

(** [Py_BuildValue("(sO)", str, o)] *)
Definition Py_BuildValue_sO (str : string) (o : ptr) : M ptr :=
  w0 <- PyUnicode_FromString str ;;
  w1 <- build_O o ;;
  build_tuple [w0; w1].

(** [Py_BuildValue("s(OO)O", str, o1, o2, o3)] *)
Definition Py_BuildValue_sOOO (str : string) (o1 o2 o3 : ptr) : M ptr :=
  w0 <- PyUnicode_FromString str ;;
  w10 <- build_O o1 ;;
  w11 <- build_O o2 ;;
  w1 <- build_tuple [w10; w11] ;;
  w2 <- build_O o3 ;;
  build_tuple [w0; w1; w2].

(* ------------------------------------------------------------------ *)
(** ** The C API of the host: types *)

Definition typeobject_at (s : state) (a : addr) : option PyTypeObject :=
  match heap s !! a with
  | Some {| ob_data := ob_typeobject t |} => Some t
  | _ => None
  end.

(** [PyType_IsSubtype(a, b)]: [b] is in the method resolution order of
    [a]. *)
Definition PyType_IsSubtype (s : state) (a b : addr) : bool :=
  match typeobject_at s a with
  | Some t => bool_decide (b ∈ tp_mro t)
  | None => false
  end.

(** [PyErr_ExceptionMatches(exc)]: the pending exception is of class
    [exc] or of a subclass. *)
Definition PyErr_ExceptionMatches (s : state) (exc : addr) : bool :=
  match curexc_type s with
  | Some t => PyType_IsSubtype s t exc
  | None => false
  end.

(** [l1] extends [l2]: an instance laid out as [l1] starts with the
    fields of [l2]. *)
Definition layout_eqb (l1 l2 : layout) : bool :=
  match l1, l2 with
  | Lobject, Lobject | Lunicode, Lunicode | Llong, Llong
  | Ltuple, Ltuple | Ldict, Ldict | Ltype, Ltype
  | LBaseException, LBaseException | LOSError, LOSError
  | LPycairoError, LPycairoError => true
  | _, _ => false
  end.

Definition extends (l1 l2 : layout) : bool :=
  layout_eqb l1 l2 ||
  match l1, l2 with
  | _, Lobject => true
  | (LOSError | LPycairoError), LBaseException => true
  | _, _ => false
  end.

(** [best_base]: the bases are gone through in order; each has to be a
    type that can be subclassed, and the winner so far is kept or
    replaced according to whose layout extends the other's.  The result
    is the base whose layout extends those of all the others, or the
    text of the [TypeError] for the first base that is refused. *)
Definition not_acceptable (b : addr * PyTypeObject) : string :=
  ("type '" ++ tp_name (snd b) ++ "' is not an acceptable base type")%string.

Fixpoint best_base (winner : addr * PyTypeObject)
    (bases : list (addr * PyTypeObject)) : string + addr * PyTypeObject :=
  match bases with
  | [] => inr winner
  | b :: r =>
      if negb (tp_basetype (snd b)) then inl (not_acceptable b)
      else if extends (tp_layout (snd winner)) (tp_layout (snd b))
      then best_base winner r
      else if extends (tp_layout (snd b)) (tp_layout (snd winner))
      then best_base b r
      else inl "multiple bases have instance lay-out conflict"%string
  end.

Definition best_base_of (b0 : addr * PyTypeObject)
    (bases : list (addr * PyTypeObject)) : string + addr * PyTypeObject :=
  if negb (tp_basetype (snd b0)) then inl (not_acceptable b0)
  else best_base b0 bases.

(** C3 linearization: repeatedly take the first head that is in no
    tail.  [fuel] bounds the number of rounds (one per element taken). *)
Definition c3_candidate (seqs : list (list addr)) : option addr :=
  find (fun c => forallb (fun q => negb (bool_decide (c ∈ tail q))) seqs)
       (omap head seqs).

Definition c3_drop (c : addr) (q : list addr) : list addr :=
  match q with
  | x :: r => if bool_decide (x = c) then r else q
  | [] => []
  end.

Fixpoint c3_merge (fuel : nat) (seqs : list (list addr))
    : option (list addr) :=
  match filter (fun q => q <> []) seqs with
  | [] => Some []
  | live =>
      match fuel with
      | O => None
      | S n =>
          match c3_candidate live with
          | Some c => option_map (cons c) (c3_merge n (map (c3_drop c) live))
          | None => None
          end
      end
  end.

Definition mro_of_bases (bases : list (addr * PyTypeObject))
    : option (list addr) :=
  let seqs := map (fun b => tp_mro (snd b)) bases ++ [map fst bases] in
  c3_merge (length (concat seqs)) seqs.

Definition types_at (s : state) (l : list addr)
    : option (list (addr * PyTypeObject)) :=
  mapM (fun a => pair a <$> typeobject_at s a) l.

(** Whether a class dictionary binds [name]. *)
Fixpoint binds (s : state) (name : string) (entries : list (addr * addr))
    : bool :=
  match entries with
  | [] => false
  | (k, _) :: r =>
      match heap s !! k with
      | Some {| ob_data := ob_unicode u |} =>
          String.eqb u name || binds s name r
      | _ => binds s name r
      end
  end.

(** The [tp_init] a class inherits: [__init__] is looked up along the
    resolution order, and the first class that binds it gives its slot. *)
Fixpoint resolve_init (s : state) (mro : list addr) : initproc :=
  match mro with
  | [] => init_host
  | a :: r =>
      match typeobject_at s a with
      | Some t => if tp_dict_init t then tp_init t else resolve_init s r
      | None => resolve_init s r
      end
  end.

(** An allocation the host makes for its own use: it can fail with
    [MemoryError]; what it allocates is not an object of this model. *)
Definition host_alloc : M bool :=
  fails <- take_fault ;;
  if fails : bool then PyErr_NoMemory ;; ret false
  else ret true.

(** [type_new], reached as [PyType_Type.tp_new], on arguments
    [(name, bases, dict)] where [name] is a string, [bases] a tuple of
    types whose metatype is [type], and [dict] a dictionary (other
    arguments get a [TypeError] too, in the host with a text of their
    own).  The bases are checked and the best base chosen; the class
    dictionary is copied into a dictionary that the host owns and fills
    further ([__doc__], [__weakref__], [__module__]), which is not
    modelled as an object; the type is allocated, and readied: its
    resolution order is computed (the host names the bases in the text
    of the [TypeError] when there is none), [tp_new] comes from the best
    base and [tp_init] from the class dictionary or else along the
    resolution order.  An allocation that fails gives [MemoryError]. *)
Definition type_new_fields (s : state) (a : addr)
    : option (string * list (addr * PyTypeObject) * list (addr * addr)) :=
  match heap s !! a with
  | Some {| ob_data := ob_tuple [n; b; d] |} =>
      match heap s !! n, heap s !! b, heap s !! d with
      | Some {| ob_data := ob_unicode name |},
        Some {| ob_data := ob_tuple bases |},
        Some {| ob_data := ob_dict entries |} =>
          (fun tys => (name, tys, entries)) <$>
            types_at s (if bases is [] then [PyBaseObject_Type] else bases)
      | _, _, _ => None
      end
  | _ => None
  end.

Definition type_new (metatype : addr) (arguments kwds : ptr) : M ptr :=
  _ <- deref arguments ;;
  fields <- gets (fun s => arguments ≫= type_new_fields s) ;;
  match fields with
  | Some (name, b0 :: bases, entries) =>
      match best_base_of b0 bases with
      | inr winner =>
          copied <- host_alloc ;;
          if copied : bool then
            own_init <- gets (fun s => binds s "__init__" entries) ;;
            match mro_of_bases (b0 :: bases) with
            | Some mro =>
                inherited <- gets (fun s => resolve_init s mro) ;;
                self <- gets next_addr ;;
                PyObject_New metatype
                  (ob_typeobject
                     {| tp_name := name;
                        tp_layout := tp_layout (snd winner);
                        tp_basetype := true;
                        tp_new := tp_new (snd winner);
                        tp_init := if own_init : bool then init_host
                                   else inherited;
                        tp_base := Some (fst winner);
                        tp_bases := map fst (b0 :: bases);
                        tp_mro := self :: mro;
                        tp_dict_init := own_init |})
            | None =>
                allocated <- host_alloc ;;
                if allocated : bool then
                  PyErr_SetString PyExc_TypeError
                    "Cannot create a consistent method resolution order (MRO) for bases" ;;
                  ret NULL
                else ret NULL
            end
          else ret NULL
      | inl msg =>
          PyErr_SetString PyExc_TypeError msg ;;
          ret NULL
      end
  | _ =>
      PyErr_SetString PyExc_TypeError "type.__new__() argument error" ;;
      ret NULL
  end.

(* ------------------------------------------------------------------ *)
(** ** The C API of the host: exception objects *)

(** The [PyBaseExceptionObject] an exception instance starts with. *)
Definition exception_base (o : object) : option PyBaseExceptionObject :=
  match ob_data o with
  | ob_exception e => Some e
  | ob_error e => Some (base e)
  | _ => None
  end.

(** An exception that holds nothing but its [args], as
    [BaseException_new] leaves it. *)
Definition only_args (a : ptr) : PyBaseExceptionObject :=
  {| dict := NULL; args := a; notes := NULL; traceback := NULL;
     context := NULL; cause := NULL |}.

(** [b] with [args] replaced. *)
Definition set_args (a : ptr) (b : PyBaseExceptionObject)
    : PyBaseExceptionObject :=
  {| dict := dict b; args := a; notes := notes b;
     traceback := traceback b; context := context b; cause := cause b |}.

Definition with_base (b : PyBaseExceptionObject) (d : payload) : payload :=
  match d with
  | ob_error e => ob_error {| base := b; status := status e |}
  | ob_exception _ => ob_exception b
  | _ => d
  end.

Definition with_args (a : ptr) (d : payload) : payload :=
  match d with
  | ob_error e =>
      ob_error {| base := set_args a (base e); status := status e |}
  | ob_exception b => ob_exception (set_args a b)
  | _ => d
  end.

(** What [tp_alloc] hands out for a type of the given layout: all
    fields zero. *)
Definition zeroed (l : layout) : payload :=
  match l with
  | LPycairoError =>
      ob_error {| base := only_args NULL; status := NULL |}
  | _ => ob_exception (only_args NULL)
  end.

(** [BaseException_new] (called with the [args] of [PyObject_Call],
    never [NULL]): allocate, then [self->args = args]. *)
Definition BaseException_new (type : addr) (l : layout) (arguments : ptr)
    : M ptr :=
  self <- PyObject_New type (with_args arguments (zeroed l)) ;;
  if self is Some _ then Py_INCREF arguments ;; ret self
  else ret NULL.

(** [Py_TYPE(o)->tp_name] *)
Definition type_name (o : object) : M string :=
  t <- deref (Some (ob_type o)) ;;
  match ob_data t with
  | ob_typeobject ty => ret (tp_name ty)
  | _ => undefined
  end.

Definition PyDict_CheckExact (o : object) : bool :=
  bool_decide (ob_type o = PyDict_Type).

(** [_PyArg_NoKeywords(funcname, kwargs)]: [kwargs] is [NULL] or an
    empty dictionary; otherwise [TypeError] with the name in its
    message (which is read when the message is formatted).  For
    something that is not a dictionary the host raises [SystemError]
    (and puts the place of the check in front of the message). *)
Definition _PyArg_NoKeywords (funcname : M string) (kwargs : ptr) : M bool :=
  if kwargs is Some _ then
    k <- deref kwargs ;;
    if PyDict_CheckExact k then
      match ob_data k with
      | ob_dict [] => ret true
      | ob_dict _ =>
          name <- funcname ;;
          PyErr_SetString PyExc_TypeError
            (name ++ "() takes no keyword arguments")%string ;;
          ret false
      | _ => undefined
      end
    else
      PyErr_SetString PyExc_SystemError
        "bad argument to internal function" ;;
      ret false
  else ret true.

(** [BaseException_init]: no keyword arguments are accepted; the
    argument tuple replaces [self->args]. *)
Definition BaseException_init (self arguments kwds : ptr) : M Z :=
  o <- deref self ;;
  match exception_base o, self with
  | Some b, Some a =>
      no_keywords <- _PyArg_NoKeywords (type_name o) kwds ;;
      if no_keywords : bool then
        Py_INCREF arguments ;;
        store a {| ob_type := ob_type o;
                   ob_data := with_args arguments (ob_data o) |} ;;
        Py_XDECREF (args b) ;;
        ret 0
      else ret (-1)
  | _, _ => undefined
  end.

(* ------------------------------------------------------------------ *)
(** * [cairo/error.c] *)

Section error_c.

(** The native library's [cairo_status_to_string]. *)
Variable cairo_status_to_string : cairo_status_t -> string.

(** The text [str()] gives for an object that is not itself a string
    (whatever the [tp_str] of its type computes). *)
Variable tp_str_text : state -> addr -> string.

(** Calls of the host that are not the construction of an exception. *)
Variable host_call : ptr -> ptr -> ptr -> M ptr.

(** [PyObject_Str]: an object that is exactly a string is its own
    string form (a new reference to the same object); anything else is
    rendered into a new string. *)
Definition PyUnicode_CheckExact (o : object) : bool :=
  bool_decide (ob_type o = PyUnicode_Type) &&
  match ob_data o with
  | ob_unicode _ => true
  | _ => false
  end.

Definition PyObject_Str (v : ptr) : M ptr :=
  match v with
  | Some a =>
      o <- deref v ;;
      if PyUnicode_CheckExact o then Py_INCREF v ;; ret v
      else
        u <- gets (fun s => tp_str_text s a) ;;
        PyUnicode_FromString u
  | None => PyUnicode_FromString "<NULL>"
  end.

(** [BaseException_str]: the empty string, the string form of the only
    argument, or the string form of the whole tuple. *)
Definition BaseException_str (self : ptr) : M ptr :=
  o <- deref self ;;
  match exception_base o with
  | Some b =>
      n <- PyTuple_GET_SIZE (args b) ;;
      if n =? 0 then PyUnicode_FromString ""
      else if n =? 1 then
        item <- PyTuple_GET_ITEM (args b) 0 ;;
        PyObject_Str item
      else PyObject_Str (args b)
  | None => undefined
  end.

(** Modelled from the spec: [CREATE_INT_ENUM(Status, status)] is a macro
    of [private.h], which is not part of the sources at hand; the spec
    calls it [wrapAsEnum(categoryName, StatusCode) -> value], an opaque
    helper producing the rich status value.  Here: a fresh instance of
    the status enumeration holding the code, or [NULL] with an exception
    pending when it cannot be allocated. *)
Definition CREATE_INT_ENUM_Status (status : cairo_status_t) : M ptr :=
  PyObject_New Pycairo_Status_Type (ob_long status).

(** Modelled from the spec: [_Pycairo_Get_Error()] comes from
    [private.h] too; the spec has it yield the library's base exception
    type. *)
Definition _Pycairo_Get_Error : M ptr := ret (Some PycairoError_Type).

(** [static const char* status_to_string(cairo_status_t status)] *)
Definition status_to_string (status : cairo_status_t) : string :=
  if status =? CAIRO_STATUS_INVALID_RESTORE then
    "Context.restore() without matching Context.save()"
  else if status =? CAIRO_STATUS_INVALID_POP_GROUP then
    "Context.pop_group() without matching Context.push_group()"
  else
    cairo_status_to_string status.

(** Accessors for the fields of a [PycairoErrorObject *]; a pointer to
    anything else is undefined. *)
Definition get_error (self : ptr) : M PycairoErrorObject :=
  o <- deref self ;;
  match ob_data o with
  | ob_error e => ret e
  | _ => undefined
  end.

Definition set_status (self value : ptr) : M unit :=
  o <- deref self ;;
  match ob_data o, self with
  | ob_error e, Some a =>
      store a {| ob_type := ob_type o;
                 ob_data := ob_error {| base := base e; status := value |} |}
  | _, _ => undefined
  end.

(** [static int error_init(PycairoErrorObject *self, PyObject *args,
    PyObject *kwds)].  [PycairoError_Type.tp_base] is [PyExc_Exception]
    (set in [error_get_type]), whose [tp_init] is [BaseException_init]. *)
Definition error_init (self arguments kwds : ptr) : M Z :=
  r <- BaseException_init self arguments kwds ;;
  if r <? 0 then ret (-1)
  else
    e <- get_error self ;;
    n <- PyTuple_GET_SIZE (args (base e)) ;;
    (if n >=? 2 then
       item <- PyTuple_GET_ITEM (args (base e)) 1 ;;
       set_status self item
     else
       set_status self (Some Py_None)) ;;
    e' <- get_error self ;;
    Py_INCREF (status e') ;;
    ret 0.

(** [static PyObject *error_get_status(PycairoErrorObject *self, void
    *closure)] *)
Definition error_get_status (self : ptr) : M ptr :=
  e <- get_error self ;;
  Py_INCREF (status e) ;;
  ret (status e).

(** [static int error_set_status(PycairoErrorObject *self, PyObject
    *value, void *closure)] *)
Definition error_set_status (self value : ptr) : M Z :=
  if value is None then
    PyErr_SetString PyExc_TypeError "Cannot delete attribute" ;;
    ret (-1)
  else
    e <- get_error self ;;
    Py_DECREF (status e) ;;
    Py_INCREF value ;;
    set_status self value ;;
    ret 0.

(** [static PyObject *error_str(PycairoErrorObject *self)] *)
Definition error_str (self : ptr) : M ptr :=
  e <- get_error self ;;
  n <- PyTuple_GET_SIZE (args (base e)) ;;
  if n >=? 1 then
    item <- PyTuple_GET_ITEM (args (base e)) 0 ;;
    PyObject_Str item
  else
    BaseException_str self.

(** [type_call], the [tp_call] of type objects, for the exception
    classes: [tp_new], then [tp_init] on the fresh object, which is
    dropped when its initialisation fails. *)
Definition call_init (i : initproc) (self arguments kwds : ptr) : M Z :=
  match i with
  | init_error => error_init self arguments kwds
  | _ => BaseException_init self arguments kwds
  end.

Definition type_call (type : addr) (t : PyTypeObject) (arguments kwds : ptr)
    : M ptr :=
  obj <- BaseException_new type (tp_layout t) arguments ;;
  if obj is Some _ then
    res <- call_init (tp_init t) obj arguments kwds ;;
    if res <? 0 then Py_DECREF obj ;; ret NULL
    else ret obj
  else ret NULL.

(** [PyObject_Call(callable, args, kwargs)]: neither [callable] nor
    [args] may be [NULL]. *)
Definition PyObject_Call (callable arguments kwds : ptr) : M ptr :=
  c <- deref callable ;;
  _ <- deref arguments ;;
  match callable, ob_data c with
  | Some type, ob_typeobject t =>
      match tp_new t, tp_init t with
      | new_BaseException, (init_BaseException | init_error) =>
          type_call type t arguments kwds
      | _, _ => host_call callable arguments kwds
      end
  | _, _ => host_call callable arguments kwds
  end.

(** [static void set_error(PyObject *error_type, cairo_status_t status)] *)
Definition set_error (error_type : ptr) (status : cairo_status_t) : M unit :=
  enum <- CREATE_INT_ENUM_Status status ;;
  arguments <- Py_BuildValue_sO (status_to_string status) enum ;;
  v <- PyObject_Call error_type arguments NULL ;;
  Py_DECREF arguments ;;
  if v is Some _ then
    type <- Py_TYPE v ;;
    PyErr_SetObject type v ;;
    Py_DECREF v
  else ret tt.

(** [static PyObject *error_get_type_combined(PyObject *error, PyObject
    *other, char *name)] *)
Definition error_get_type_combined (error other : ptr) (name : string)
    : M ptr :=
  class_dict <- PyDict_New ;;
  if class_dict is None then ret NULL
  else
    new_type_args <- Py_BuildValue_sOOO name error other class_dict ;;
    Py_DECREF class_dict ;;
    if new_type_args is None then ret NULL
    else
      new_type <- type_new PyType_Type new_type_args NULL ;;
      ret new_type.

(** [int Pycairo_Check_Status(cairo_status_t status)] *)
Definition Pycairo_Check_Status (status : cairo_status_t) : M Z :=
  pending <- PyErr_Occurred ;;
  if pending is Some _ then ret 1
  else if status =? CAIRO_STATUS_SUCCESS then ret 0
  else
    (if status =? CAIRO_STATUS_NO_MEMORY then
       error <- _Pycairo_Get_Error ;;
       suberror <- error_get_type_combined
                     error (Some PyExc_MemoryError) "MemoryError" ;;
       set_error suberror status ;;
       Py_DECREF suberror
     else if (status =? CAIRO_STATUS_READ_ERROR)
             || (status =? CAIRO_STATUS_WRITE_ERROR) then
       PyErr_SetString PyExc_IOError (cairo_status_to_string status)
     else
       error <- _Pycairo_Get_Error ;;
       set_error error status) ;;
    ret 1.

(** [static PyObject *error_check_status(PyTypeObject *type, PyObject
    *args)], after [PyArg_ParseTuple] has read the C int. *)
Definition error_check_status (status : cairo_status_t) : M ptr :=
  failed <- Pycairo_Check_Status status ;;
  if failed =? 0 then Py_INCREF (Some Py_None) ;; ret (Some Py_None)
  else ret NULL.

End error_c.

(* ------------------------------------------------------------------ *)
(** * [cairo/error.c]: the hooks of the cyclic collector *)

(** A [visitproc] together with its [arg] is a computation on the
    referent it is shown; [Py_VISIT(op)] calls it when [op] is not
    [NULL] and makes the enclosing function return what it returns when
    that is not zero; [rest] is what follows the macro. *)
Definition Py_VISIT (op : ptr) (visit : ptr → M Z) (rest : M Z) : M Z :=
  if op is Some _ then
    vret <- visit op ;;
    if vret =? 0 then rest else ret vret
  else rest.

(** The object fields of [PyBaseExceptionObject], in the order in which
    the hooks of the host go through them. *)
Inductive exception_field :=
| exc_dict | exc_args | exc_notes | exc_traceback | exc_cause | exc_context.

Definition field_of (f : exception_field) (b : PyBaseExceptionObject) : ptr :=
  match f with
  | exc_dict => dict b
  | exc_args => args b
  | exc_notes => notes b
  | exc_traceback => traceback b
  | exc_cause => cause b
  | exc_context => context b
  end.


(** [self->f], for a field of the base part. *)
Definition base_field (self : ptr) (f : exception_field) : M ptr :=
  o <- deref self ;;
  match exception_base o with
  | Some b => ret (field_of f b)
  | None => undefined
  end.


(** [BaseException_traverse], [BaseException_clear] and
    [BaseException_dealloc] of the host: [Py_VISIT], respectively
    [Py_CLEAR], of [dict], [args], [notes], [traceback], [cause] and
    [context], in this order; clear, then [tp_free]. *)
Definition BaseException_traverse (self : ptr) (visit : ptr → M Z) : M Z :=
  op <- base_field self exc_dict ;; Py_VISIT op visit (
  op <- base_field self exc_args ;; Py_VISIT op visit (
  op <- base_field self exc_notes ;; Py_VISIT op visit (
  op <- base_field self exc_traceback ;; Py_VISIT op visit (
  op <- base_field self exc_cause ;; Py_VISIT op visit (
  op <- base_field self exc_context ;; Py_VISIT op visit (
  ret 0)))))).




(** [static int error_traverse(PycairoErrorObject *self, visitproc
    visit, void *arg)] *)
Definition error_traverse (self : ptr) (visit : ptr → M Z) : M Z :=
  e <- get_error self ;;
  Py_VISIT (status e) visit (BaseException_traverse self visit).



(** The references a structured exception holds, in the order in which
    its hooks go through them: [status], then those of the base part;
    [referents] are those that are set. *)
Definition owned (e : PycairoErrorObject) : list ptr :=
  status e ::
  map (fun f => field_of f (base e))
      [exc_dict; exc_args; exc_notes; exc_traceback; exc_cause; exc_context].

Definition referents (e : PycairoErrorObject) : list addr :=
  omap id (owned e).

(** A visitor that only keeps books on the counts and never stops the
    traversal, as those of the collector do. *)
Definition counting_visit
    (g : addr → gmap positive Z → gmap positive Z) (p : ptr) : M Z :=
  match p with
  | Some a => modify (fun s => set_refcnt (g a (ob_refcnt s)) s) ;; ret 0
  | None => undefined
  end.



(** The reference count of an object (zero when none is recorded). *)
Definition refcount (s : state) (a : addr) : Z :=
  default 0 (ob_refcnt s !! a).

(** How many of the pointers of a list are [a]. *)
Definition occurrences (a : addr) (l : list ptr) : Z :=
  Z.of_nat (length (filter (fun p => p = Some a) l)).

(* ------------------------------------------------------------------ *)
(** * Examples of the parameters *)

(** A few entries of the native table of [cairo_status_to_string]. *)
Definition native_status_to_string (status : cairo_status_t) : string :=
  if status =? CAIRO_STATUS_SUCCESS then "no error has occurred"
  else if status =? CAIRO_STATUS_NO_MEMORY then "out of memory"
  else if status =? CAIRO_STATUS_INVALID_RESTORE then
    "cairo_restore() without matching cairo_save()"
  else if status =? CAIRO_STATUS_INVALID_POP_GROUP then
    "no saved group to pop, i.e. cairo_pop_group() without matching cairo_push_group()"
  else if status =? CAIRO_STATUS_READ_ERROR then
    "error while reading from input stream"
  else if status =? CAIRO_STATUS_WRITE_ERROR then
    "error while writing to output stream"
  else "<unknown error status>".

(** A host whose remaining constructors all refuse to build anything. *)
Definition refusing_call (callable arguments kwds : ptr) : M ptr :=
  PyErr_SetString PyExc_TypeError "cannot create instances" ;;
  ret NULL.

(** A host that renders every object that is not a string the same
    way. *)
Definition plain_text (s : state) (a : addr) : string := "<object>".

(** The interpreter with a [TypeError] already pending: the message is
    object 17. *)
Definition pending_message : addr := first_free.

Definition pending_state : state :=
  {| heap := <[pending_message :=
                 {| ob_type := PyUnicode_Type;
                    ob_data := ob_unicode "an earlier failure" |}]>
               static_heap;
     ob_refcnt := <[pending_message := 1]> ((fun _ => 1) <$> static_heap);
     next_addr := Pos.succ first_free;
     curexc_type := Some PyExc_TypeError;
     curexc_value := Some pending_message;
     faults := [] |}.

(** The interpreter holding the objects ["boom"], [42], [("boom", 42)],
    [("boom",)] and [()] at the addresses 17 to 21; at 22 an instance of
    [cairo.Error] as [BaseException_new] leaves it for [("boom", 42)],
    before [tp_init] has run; at 23 the exception [Error("boom", 42)]. *)
Definition boom_state : state :=
  {| heap :=
       <[23%positive :=
           {| ob_type := PycairoError_Type;
              ob_data := ob_error {| base := only_args (Some 19%positive);
                                     status := Some 18%positive |} |}]>
      (<[22%positive :=
           {| ob_type := PycairoError_Type;
              ob_data := ob_error {| base := only_args (Some 19%positive);
                                     status := NULL |} |}]>
      (<[21%positive := {| ob_type := PyTuple_Type; ob_data := ob_tuple [] |}]>
      (<[20%positive :=
           {| ob_type := PyTuple_Type; ob_data := ob_tuple [17%positive] |}]>
      (<[19%positive :=
           {| ob_type := PyTuple_Type;
              ob_data := ob_tuple [17%positive; 18%positive] |}]>
      (<[18%positive := {| ob_type := PyLong_Type; ob_data := ob_long 42 |}]>
      (<[17%positive :=
           {| ob_type := PyUnicode_Type; ob_data := ob_unicode "boom" |}]>
         static_heap))))));
     ob_refcnt := ∅;
     next_addr := 24%positive;
     curexc_type := NULL;
     curexc_value := NULL;
     faults := [] |}.

(** [boom_state] with a dictionary of one entry at 24, as the keyword
    arguments of a call would be. *)
Definition kwds_state : state :=
  {| heap := <[24%positive :=
                 {| ob_type := PyDict_Type;
                    ob_data := ob_dict [(17%positive, 18%positive)] |}]>
               (heap boom_state);
     ob_refcnt := ∅;
     next_addr := 25%positive;
     curexc_type := NULL;
     curexc_value := NULL;
     faults := [] |}.

(** [kwds_state] with, at 25, an exception as it is while it is being
    handled: an [Error("boom", 42)] that has an instance dictionary (the
    one at 24) and was raised while the exception at 23 was handled. *)
Definition raised_state : state :=
  {| heap := <[25%positive :=
                 {| ob_type := PycairoError_Type;
                    ob_data :=
                      ob_error
                        {| base := {| dict := Some 24%positive;
                                      args := Some 19%positive;
                                      notes := NULL;
                                      traceback := NULL;
                                      context := Some 23%positive;
                                      cause := NULL |};
                           status := Some 18%positive |} |}]>
               (heap kwds_state);
     ob_refcnt := ∅;
     next_addr := 26%positive;
     curexc_type := NULL;
     curexc_value := NULL;
     faults := [] |}.

(** What an observer reads off a result: the text of a string object,
    the integer of an integer object. *)
Definition text_at (s : state) (p : ptr) : option string :=
  match p ≫= (fun a => heap s !! a) with
  | Some {| ob_data := ob_unicode u |} => Some u
  | _ => None
  end.

Definition long_at (s : state) (p : ptr) : option Z :=
  match p ≫= (fun a => heap s !! a) with
  | Some {| ob_data := ob_long z |} => Some z
  | _ => None
  end.

Definition error_at (s : state) (p : ptr) : option PycairoErrorObject :=
  match p ≫= (fun a => heap s !! a) with
  | Some {| ob_data := ob_error e |} => Some e
  | _ => None
  end.

Definition tuple_at (s : state) (p : ptr) : option (list addr) :=
  match p ≫= (fun a => heap s !! a) with
  | Some {| ob_data := ob_tuple l |} => Some l
  | _ => None
  end.

(** [isinstance(p, cls)] *)
Definition isinstance (s : state) (p : ptr) (cls : addr) : bool :=
  match p ≫= (fun a => heap s !! a) with
  | Some o => PyType_IsSubtype s (ob_type o) cls
  | None => false
  end.

Definition type_of (s : state) (p : ptr) : option addr :=
  ob_type <$> (p ≫= (fun a => heap s !! a)).

(** The pending exception is a structured exception constructed from
    [(msg, code)]: its [args] is a pair of a string and of a status
    value, and its [status] is that second item. *)
Definition raised_with (s : state) (msg : string) (code : cairo_status_t)
    : Prop :=
  ∃ x a m e,
    error_at s (curexc_value s) = Some x ∧
    args (base x) = Some a ∧ status x = Some e ∧
    tuple_at s (Some a) = Some [m; e] ∧
    text_at s (Some m) = Some msg ∧
    long_at s (Some e) = Some code ∧
    type_of s (Some e) = Some Pycairo_Status_Type.

(** The convention of the C API for a call that returns an object: a
    [NULL] result comes with an exception set. *)
Definition raises_on_NULL (call : ptr → ptr → ptr → M ptr) : Prop :=
  ∀ c a k s s', call c a k s = Returned NULL s' → curexc_type s' ≠ NULL.

(* ------------------------------------------------------------------ *)
(** * Well-formed states *)

(** The static objects are in place, addresses from [next_addr] on are
    free, and the error indicator is consistent: a value only with a
    type, both alive. *)
Record wf (s : state) : Prop := {
  wf_static : static_heap ⊆ heap s;
  wf_fresh : ∀ a, (next_addr s ≤ a)%positive → heap s !! a = None;
  wf_indicator : curexc_type s = None → curexc_value s = None;
  wf_type_alive : ∀ a, curexc_type s = Some a → is_Some (heap s !! a);
  wf_value_alive : ∀ a, curexc_value s = Some a → is_Some (heap s !! a)
}.

Definition pending (s : state) : Prop := curexc_type s <> None.

Lemma lookup_static s a o :
  wf s → static_heap !! a = Some o → heap s !! a = Some o.
Proof. intros Hwf Ha. exact (lookup_weaken _ _ _ _ Ha (wf_static s Hwf)). Qed.

Lemma static_below s a o :
  wf s → static_heap !! a = Some o → (a < next_addr s)%positive.
Proof.
  intros Hwf Ha. destruct (Pos.ltb_spec a (next_addr s)) as [|Hle]; [done|].
  pose proof (lookup_static _ _ _ Hwf Ha) as H.
  rewrite (wf_fresh _ Hwf a Hle) in H. congruence.
Qed.

Lemma first_free_le s : wf s → (first_free ≤ next_addr s)%positive.
Proof.
  intros Hwf.
  pose proof (static_below s Pycairo_Status_Type _ Hwf eq_refl).
  unfold first_free, Pycairo_Status_Type in *. lia.
Qed.

Lemma static_heap_above a : (first_free ≤ a)%positive → static_heap !! a = None.
Proof.
  intros Ha. apply not_elem_of_list_to_map. cbn.
  unfold first_free in Ha. intros Hin.
  repeat (apply elem_of_cons in Hin as [->|Hin]; [vm_compute in Ha; congruence|]).
  by apply elem_of_nil in Hin.
Qed.

Lemma wf_initial_state f : wf (initial_state f).
Proof.
  split; cbn; try done.
  apply static_heap_above.
Qed.

(* ------------------------------------------------------------------ *)
(** * Symbolic execution *)

(** Unfold the C code and the host API down to reads of the state. *)
Ltac unfold_c :=
  cbv beta iota zeta delta
    [bind ret gets modify deref store add_ref undefined
     Py_INCREF Py_DECREF Py_XINCREF Py_XDECREF Py_TYPE
     PyErr_Occurred PyErr_SetObject PyErr_NoMemory take_fault fresh
     PyObject_New PyUnicode_FromString PyErr_SetString PyDict_New
     PyTuple_GET_SIZE PyTuple_GET_ITEM non_null for_each build_O
     build_tuple Py_BuildValue_sO Py_BuildValue_sOOO
     type_new type_new_fields types_at typeobject_at
     host_alloc best_base_of negb binds resolve_init
     type_name _PyArg_NoKeywords
     BaseException_new BaseException_init PyUnicode_CheckExact
     PyObject_Str BaseException_str
     CREATE_INT_ENUM_Status _Pycairo_Get_Error get_error set_status
     error_init error_get_status error_set_status error_str
     call_init type_call PyObject_Call set_error error_get_type_combined
     Pycairo_Check_Status error_check_status
     set_heap set_refcnt set_curexc set_faults
     option_map mbind option_bind fmap option_fmap mapM mret option_ret
     exception_base with_args with_base only_args set_args zeroed
     ob_type ob_data dict args notes traceback context cause
     base status fst snd
     tp_name tp_layout tp_basetype tp_new tp_init tp_base tp_bases tp_mro
     tp_dict_init];
  cbn [heap ob_refcnt next_addr curexc_type curexc_value faults length].

(** Sizes of and reads from tuples whose items are known, comparisons
    of numerals. *)
Ltac closed_arith :=
  repeat match goal with
    | |- context [Z.of_nat ?n] =>
        let r := eval cbn in (Z.of_nat n) in
        lazymatch r with
        | context [Pos.of_succ_nat] => fail
        | context [Z.of_nat] => fail
        | _ => progress change (Z.of_nat n) with r
        end
    | |- context [@lookup nat ?A (list ?A) ?inst ?i ?l] =>
        let r := eval cbv [lookup list_lookup] in (@lookup nat A (list A) inst i l) in
        progress change (@lookup nat A (list A) inst i l) with r
    | |- context [Z.geb ?a ?b] =>
        let r := eval vm_compute in (Z.geb a b) in
        lazymatch r with true => idtac | false => idtac end;
        change (Z.geb a b) with r
    | |- context [Z.ltb ?a ?b] =>
        let r := eval vm_compute in (Z.ltb a b) in
        lazymatch r with true => idtac | false => idtac end;
        change (Z.ltb a b) with r
    | |- context [Z.eqb ?a ?b] =>
        let r := eval vm_compute in (Z.eqb a b) in
        lazymatch r with true => idtac | false => idtac end;
        change (Z.eqb a b) with r
    end.

(** Disequalities between addresses: static ones are numerals, fresh
    ones are successors of [next_addr]. *)
Ltac addr_neq :=
  try assumption; try congruence;
  unfold Py_None, PyBaseObject_Type, PyType_Type, _PyNone_Type,
    PyUnicode_Type, PyLong_Type, PyTuple_Type, PyDict_Type,
    PyExc_BaseException, PyExc_Exception, PyExc_TypeError,
    PyExc_SystemError, PyExc_MemoryError, PyExc_IOError,
    PycairoError_Type, Pycairo_Status_Type, first_free in *;
  lia.

Ltac static_lookup Hwf :=
  match goal with
  | |- context [@lookup ?K ?A ?M ?inst ?a (heap ?s)] =>
      is_var s;
      lazymatch a with context [next_addr] => fail | _ => idtac end;
      let o := eval vm_compute in (static_heap !! a) in
      lazymatch o with
      | Some ?v =>
          let H := fresh in
          assert (H : @lookup K A M inst a (heap s) = Some v)
            by exact (lookup_static s a v Hwf ltac:(vm_compute; reflexivity));
          rewrite H; clear H
      end
  end.

Ltac known_lookup :=
  match goal with
  | H : @lookup _ _ _ _ ?a (heap ?s) = Some ?v
    |- context [@lookup ?K ?A ?M ?inst ?a (heap ?s)] =>
      let H' := fresh in
      assert (H' : @lookup K A M inst a (heap s) = Some v) by exact H;
      rewrite H'; clear H'
  end.

Ltac known_field :=
  match goal with
  | H : faults ?s = _ |- context [faults ?s] => rewrite H
  | H : curexc_type ?s = _ |- context [curexc_type ?s] => rewrite H
  | H : curexc_value ?s = _ |- context [curexc_value ?s] => rewrite H
  end.

Ltac lookups Hwf :=
  repeat first
    [ rewrite lookup_insert_eq
    | rewrite lookup_insert_ne by addr_neq
    | known_lookup
    | static_lookup Hwf
    | known_field ].

(** The linearization and the best base of closed lists of types. *)
Ltac closed_types :=
  repeat match goal with
    | |- context [mro_of_bases ?l] =>
        let r := eval vm_compute in (mro_of_bases l) in
        change (mro_of_bases l) with r
    | |- context [best_base ?w ?l] =>
        let r := eval vm_compute in (best_base w l) in
        change (best_base w l) with r
    end.

Ltac exec Hwf :=
  repeat (progress (unfold_c; lookups Hwf; closed_types; closed_arith)).

(** Reading the result of an execution. *)
Ltac observe Hwf :=
  unfold raised_with, error_at, tuple_at, text_at, long_at, type_of,
    isinstance, PyErr_ExceptionMatches, PyType_IsSubtype, typeobject_at;
  cbv beta iota zeta delta [mbind option_bind fmap option_fmap option_map];
  cbn [heap ob_refcnt next_addr curexc_type curexc_value faults];
  lookups Hwf;
  cbn [ob_type ob_data tp_mro].

(** The state after a run is well formed again: the static objects
    were not touched, what was allocated lies below the new [next_addr],
    and the indicator refers to live objects. *)
Ltac wf_after Hwf :=
  split; cbn [heap next_addr curexc_type curexc_value];
  [ repeat (apply insert_subseteq_r;
            [apply static_heap_above; addr_neq|]);
    exact (wf_static _ Hwf)
  | let a := fresh "a" in
    let Ha := fresh "Ha" in
    intros a Ha; rewrite ?lookup_insert_ne by lia;
    apply (wf_fresh _ Hwf); lia
  | try discriminate; try (intros _; reflexivity)
  | let a := fresh "a" in
    try discriminate; intros a [= <-]; lookups Hwf; eauto
  | let a := fresh "a" in
    try discriminate; intros a [= <-]; lookups Hwf; eauto ].

Ltac exec_plain := exec I.

Ltac split_alias x self H :=
  destruct (decide (x = self)) as [->|?]; [clear H|].

(* ------------------------------------------------------------------ *)
(** * Lemmas on the host model *)

Lemma alive_below s a :
  wf s → is_Some (heap s !! a) → (a < next_addr s)%positive.
Proof.
  intros Hwf [o Ho].
  destruct (Pos.ltb_spec a (next_addr s)) as [|Hle]; [done|].
  rewrite (wf_fresh s Hwf a Hle) in Ho. discriminate.
Qed.

Lemma size_ge_1 n : (Z.of_nat (S n) >=? 1) = true.
Proof. apply Z.geb_le. lia. Qed.

Lemma size_ge_2 n : (Z.of_nat (S (S n)) >=? 2) = true.
Proof. apply Z.geb_le. lia. Qed.

Lemma wf_boom_state : wf boom_state.
Proof.
  split; cbn; try done.
  - repeat (apply insert_subseteq_r;
            [apply static_heap_above; unfold first_free; lia|]).
    done.
  - intros a Ha. rewrite !lookup_insert_ne by lia.
    apply static_heap_above. unfold first_free. lia.
Qed.

Lemma wf_pending_state : wf pending_state.
Proof.
  split; cbn; try done.
  - apply insert_subseteq_r; [by apply static_heap_above|done].
  - intros a Ha. unfold pending_message, first_free in *.
    rewrite lookup_insert_ne by lia.
    apply static_heap_above. unfold first_free. lia.
  - intros a [= <-]. by eexists.
  - intros a [= <-]. by eexists.
Qed.

(** ** The linearization never runs out of fuel *)

Lemma filter_nonempty_concat (seqs : list (list addr)) :
  length (concat (filter (λ q, q ≠ []) seqs)) = length (concat seqs).
Proof.
  induction seqs as [|q seqs IH]; [done|].
  rewrite filter_cons. destruct (decide (q ≠ [])) as [Hq|Hq].
  - cbn. rewrite !length_app. lia.
  - apply dec_stable in Hq. subst q. apply IH.
Qed.

Lemma c3_drop_length c q : (length (c3_drop c q) ≤ length q)%nat.
Proof.
  destruct q as [|x r]; [done|]. cbn. case_bool_decide; cbn; lia.
Qed.

Lemma c3_drop_all_length c (seqs : list (list addr)) :
  (length (concat (map (c3_drop c) seqs)) ≤ length (concat seqs))%nat.
Proof.
  induction seqs as [|q seqs IH]; [done|].
  cbn. rewrite !length_app. pose proof (c3_drop_length c q). lia.
Qed.

Lemma c3_drop_head_length c (seqs : list (list addr)) :
  c ∈ omap head seqs →
  (length (concat (map (c3_drop c) seqs)) < length (concat seqs))%nat.
Proof.
  induction seqs as [|q seqs IH]; cbn.
  - intros H. by apply elem_of_nil in H.
  - rewrite !length_app. pose proof (c3_drop_all_length c seqs).
    destruct q as [|x r]; cbn; [by auto with lia|].
    intros [->|Hin]%elem_of_cons.
    + rewrite bool_decide_eq_true_2 by done. lia.
    + specialize (IH Hin). case_bool_decide; cbn; lia.
Qed.

Lemma c3_candidate_head seqs c :
  c3_candidate seqs = Some c → c ∈ omap head seqs.
Proof.
  unfold c3_candidate. intros H. apply find_some in H as [H _].
  by apply list_elem_of_In.
Qed.

Lemma c3_merge_fuel n seqs :
  (length (concat seqs) ≤ n)%nat →
  c3_merge (S n) seqs = c3_merge n seqs.
Proof.
  revert seqs. induction n as [|n IH]; intros seqs Hn.
  - cbn. pose proof (filter_nonempty_concat seqs) as Hlive.
    destruct (filter _ seqs) as [|q live] eqn:E; [done|].
    assert (q ≠ []) as Hq.
    { assert (q ∈ filter (λ q, q ≠ []) seqs) as Hin by (rewrite E; left).
      by apply list_elem_of_filter in Hin as [? _]. }
    destruct q; [done|]. cbn in Hlive. lia.
  - change (c3_merge (S (S n)) seqs) with
      (match filter (λ q, q ≠ []) seqs with
       | [] => Some []
       | live =>
           match c3_candidate live with
           | Some c => option_map (cons c) (c3_merge (S n) (map (c3_drop c) live))
           | None => None
           end
       end).
    change (c3_merge (S n) seqs) with
      (match filter (λ q, q ≠ []) seqs with
       | [] => Some []
       | live =>
           match c3_candidate live with
           | Some c => option_map (cons c) (c3_merge n (map (c3_drop c) live))
           | None => None
           end
       end).
    pose proof (filter_nonempty_concat seqs) as Hlive.
    destruct (filter _ seqs) as [|q live]; [done|].
    cbv beta iota zeta.
    destruct (c3_candidate (q :: live)) as [c|] eqn:Hc; [|done].
    rewrite IH; [done|].
    apply c3_candidate_head in Hc. apply c3_drop_head_length in Hc. lia.
Qed.

(** More fuel than the total length of the sequences changes nothing:
    a missing resolution order is an inconsistent hierarchy, never a
    lack of fuel. *)
Lemma c3_merge_enough_fuel n seqs :
  (length (concat seqs) ≤ n)%nat →
  c3_merge n seqs = c3_merge (length (concat seqs)) seqs.
Proof.
  induction n as [|n IH]; intros Hn.
  - by replace (length (concat seqs)) with 0%nat by lia.
  - destruct (decide (length (concat seqs) = S n)) as [->|Hne]; [done|].
    rewrite c3_merge_fuel by lia. apply IH. lia.
Qed.

(** ** Runs of sequences *)

Lemma bind_Returned {A B} (m : M A) (k : A → M B) s b s' :
  bind m k s = Returned b s' →
  ∃ a s1, m s = Returned a s1 ∧ k a s1 = Returned b s'.
Proof.
  unfold bind. destruct (m s) as [a s1|]; [|discriminate].
  intros H. by exists a, s1.
Qed.

Lemma ret_Returned {A} (a b : A) s s' :
  ret a s = Returned b s' → a = b ∧ s = s'.
Proof. unfold ret. intros H. by inversion H. Qed.

(** Split the run of a sequence into the runs of its calls. *)
Ltac run_inv H :=
  repeat match type of H with
    | bind _ _ _ = Returned _ _ =>
        let a := fresh "a" in
        let s := fresh "s" in
        let H1 := fresh "Hrun" in
        apply bind_Returned in H as (a & s & H1 & H)
    | ret _ _ = Returned _ _ =>
        apply ret_Returned in H as [? ?]; subst
    end.

(** ** The error indicator is only ever written by [PyErr_SetObject] *)

Lemma add_ref_indicator d p s u s' :
  add_ref d p s = Returned u s' →
  curexc_type s' = curexc_type s ∧ curexc_value s' = curexc_value s.
Proof.
  unfold add_ref. destruct p as [a|]; [|discriminate].
  destruct (heap s !! a); [|discriminate].
  intros H. by inversion H.
Qed.

Lemma Py_XINCREF_indicator p s u s' :
  Py_XINCREF p s = Returned u s' →
  curexc_type s' = curexc_type s ∧ curexc_value s' = curexc_value s.
Proof.
  destruct p as [a|]; [exact (add_ref_indicator 1 (Some a) s u s')|].
  intros H. by inversion H.
Qed.

Lemma Py_XDECREF_indicator p s u s' :
  Py_XDECREF p s = Returned u s' →
  curexc_type s' = curexc_type s ∧ curexc_value s' = curexc_value s.
Proof.
  destruct p as [a|]; [exact (add_ref_indicator (-1) (Some a) s u s')|].
  intros H. by inversion H.
Qed.

Lemma PyErr_SetObject_indicator e v s u s' :
  PyErr_SetObject e v s = Returned u s' →
  curexc_type s' = e ∧ curexc_value s' = v.
Proof.
  unfold PyErr_SetObject. intros H.
  apply bind_Returned in H as (? & s1 & _ & H).
  apply bind_Returned in H as (? & s2 & _ & H).
  apply bind_Returned in H as (oldtype & s3 & _ & H).
  apply bind_Returned in H as (oldvalue & s4 & _ & H).
  apply bind_Returned in H as (? & s5 & Hset & H).
  apply bind_Returned in H as (? & s6 & Hdec & H).
  apply Py_XDECREF_indicator in H as [-> ->].
  apply Py_XDECREF_indicator in Hdec as [-> ->].
  unfold modify in Hset. by inversion Hset; subst.
Qed.

(** ** A failing call of the host leaves an exception set *)

Lemma PyObject_New_raises t d s s' :
  PyObject_New t d s = Returned NULL s' → pending s'.
Proof.
  unfold PyObject_New. intros H.
  apply bind_Returned in H as (fails & s1 & _ & H).
  destruct fails; [|discriminate].
  unfold PyErr_NoMemory in H.
  apply bind_Returned in H as (? & s2 & Hset & H).
  apply ret_Returned in H as [_ <-].
  apply PyErr_SetObject_indicator in Hset as [Ht _].
  unfold pending. by rewrite Ht.
Qed.

Lemma PyErr_SetString_pending e msg s u s' :
  PyErr_SetString e msg s = Returned u s' → pending s'.
Proof.
  unfold PyErr_SetString. intros H.
  apply bind_Returned in H as (value & s1 & Hnew & H).
  destruct value as [v|].
  - apply bind_Returned in H as (? & s2 & Hset & H).
    apply add_ref_indicator in H as [Ht _].
    apply PyErr_SetObject_indicator in Hset as [Ht' _].
    unfold pending. by rewrite Ht, Ht'.
  - apply ret_Returned in H as [_ <-].
    by apply PyObject_New_raises in Hnew.
Qed.

Lemma BaseException_init_fails self a k s r s' :
  BaseException_init self a k s = Returned r s' → r < 0 → pending s'.
Proof.
  unfold BaseException_init. intros H Hr.
  apply bind_Returned in H as (o & s0 & _ & H).
  destruct (exception_base o), self; try discriminate.
  apply bind_Returned in H as (ok & s1 & Hk & H).
  destruct ok.
  - run_inv H. lia.
  - apply ret_Returned in H as [_ <-].
    unfold _PyArg_NoKeywords in Hk.
    destruct k; [|by apply ret_Returned in Hk as [? _]].
    apply bind_Returned in Hk as (d & s2 & _ & Hk).
    destruct (PyDict_CheckExact d).
    + destruct (ob_data d) as [| | | |[|]| | |]; try discriminate.
      apply bind_Returned in Hk as (nm & s3 & _ & Hk).
      apply bind_Returned in Hk as (? & s4 & Hset & Hk).
      apply ret_Returned in Hk as [_ <-].
      by eapply PyErr_SetString_pending.
    + apply bind_Returned in Hk as (? & s4 & Hset & Hk).
      apply ret_Returned in Hk as [_ <-].
      by eapply PyErr_SetString_pending.
Qed.

Lemma PyObject_New_keeps t d s r s' :
  PyObject_New t d s = Returned r s' → pending s → pending s'.
Proof.
  unfold PyObject_New. intros H Hp.
  apply bind_Returned in H as (fails & s1 & Hf & H).
  destruct fails.
  - unfold PyErr_NoMemory in H.
    apply bind_Returned in H as (? & s2 & Hset & H).
    apply ret_Returned in H as [_ <-].
    apply PyErr_SetObject_indicator in Hset as [Ht _].
    unfold pending. by rewrite Ht.
  - unfold fresh in H. inversion H; subst. unfold pending in *. cbn.
    unfold take_fault in Hf. destruct (faults s); by inversion Hf; subst.
Qed.

Lemma for_each_XDECREF_indicator l s u s' :
  for_each Py_XDECREF l s = Returned u s' → curexc_type s' = curexc_type s.
Proof.
  revert s. induction l as [|p l IH]; intros s H; cbn in H.
  - by apply ret_Returned in H as [_ <-].
  - apply bind_Returned in H as (? & s1 & Hd & H).
    apply Py_XDECREF_indicator in Hd as [Ht _].
    rewrite <- Ht. by apply IH.
Qed.

Lemma build_O_keeps o s r s' :
  build_O o s = Returned r s' → pending s → pending s'.
Proof.
  unfold build_O. intros H Hp. destruct o.
  - apply bind_Returned in H as (? & s1 & Hi & H).
    apply ret_Returned in H as [_ <-].
    apply add_ref_indicator in Hi as [Ht _]. unfold pending. by rewrite Ht.
  - apply bind_Returned in H as (p & s1 & Ho & H).
    unfold PyErr_Occurred, gets in Ho. inversion Ho; subst.
    apply bind_Returned in H as (? & s2 & Hset & H).
    apply ret_Returned in H as [_ <-].
    destruct (curexc_type s1).
    + by apply ret_Returned in Hset as [_ <-].
    + by apply PyErr_SetString_pending in Hset.
Qed.

Lemma build_O_raises o s s' :
  build_O o s = Returned NULL s' → pending s'.
Proof.
  unfold build_O. intros H. destruct o.
  - apply bind_Returned in H as (? & s1 & Hi & H).
    by apply ret_Returned in H as [? _].
  - apply bind_Returned in H as (p & s1 & Ho & H).
    unfold PyErr_Occurred, gets in Ho. inversion Ho; subst.
    apply bind_Returned in H as (? & s2 & Hset & H).
    apply ret_Returned in H as [_ <-].
    destruct (curexc_type s1) eqn:E.
    + apply ret_Returned in Hset as [_ <-]. unfold pending. by rewrite E.
    + by apply PyErr_SetString_pending in Hset.
Qed.

Lemma build_tuple_raises items s s' :
  build_tuple items s = Returned NULL s' →
  (non_null items = None → pending s) →
  pending s'.
Proof.
  unfold build_tuple. intros H Hp. destruct (non_null items) as [l|].
  - apply bind_Returned in H as (v & s1 & Hnew & H).
    apply bind_Returned in H as (? & s2 & Hrel & H).
    apply ret_Returned in H as [-> <-].
    apply for_each_XDECREF_indicator in Hrel.
    unfold pending. rewrite Hrel. by eapply PyObject_New_raises.
  - apply bind_Returned in H as (? & s1 & Hrel & H).
    apply ret_Returned in H as [_ <-].
    apply for_each_XDECREF_indicator in Hrel.
    unfold pending. rewrite Hrel. by apply Hp.
Qed.

Lemma build_tuple_keeps items s r s' :
  build_tuple items s = Returned r s' → pending s → pending s'.
Proof.
  unfold build_tuple. intros H Hp. destruct (non_null items) as [l|].
  - apply bind_Returned in H as (v & s1 & Hnew & H).
    apply bind_Returned in H as (? & s2 & Hrel & H).
    apply ret_Returned in H as [_ <-].
    apply PyObject_New_keeps in Hnew; [|done].
    destruct v.
    + by apply ret_Returned in Hrel as [_ <-].
    + apply for_each_XDECREF_indicator in Hrel.
      unfold pending. by rewrite Hrel.
  - apply bind_Returned in H as (? & s1 & Hrel & H).
    apply ret_Returned in H as [_ <-].
    apply for_each_XDECREF_indicator in Hrel.
    unfold pending. by rewrite Hrel.
Qed.

Lemma Py_BuildValue_sOOO_raises str o1 o2 o3 s s' :
  Py_BuildValue_sOOO str o1 o2 o3 s = Returned NULL s' → pending s'.
Proof.
  unfold Py_BuildValue_sOOO. intros H.
  apply bind_Returned in H as (w0 & s1 & H0 & H).
  apply bind_Returned in H as (w10 & s2 & H10 & H).
  apply bind_Returned in H as (w11 & s3 & H11 & H).
  apply bind_Returned in H as (w1 & s4 & H1 & H).
  apply bind_Returned in H as (w2 & s5 & H2 & H).
  apply build_tuple_raises in H; [done|]. intros Hnull.
  destruct w2 as [a2|]; [|by eapply build_O_raises].
  eapply build_O_keeps; [done|].
  destruct w1 as [a1|].
  - destruct w0 as [a0|]; [cbn in Hnull; discriminate|].
    eapply build_tuple_keeps; [done|].
    eapply build_O_keeps; [done|]. eapply build_O_keeps; [done|].
    by eapply PyObject_New_raises.
  - apply build_tuple_raises in H1; [done|]. intros Hn.
    destruct w10 as [a10|].
    + destruct w11; [cbn in Hn; discriminate|]. by eapply build_O_raises.
    + eapply build_O_keeps; [done|]. by eapply build_O_raises.
Qed.

Lemma host_alloc_raises s s' :
  host_alloc s = Returned false s' → pending s'.
Proof.
  unfold host_alloc. intros H.
  apply bind_Returned in H as (fails & s1 & Hf & H).
  destruct fails.
  - apply bind_Returned in H as (? & s2 & Hnm & H).
    apply ret_Returned in H as [_ <-].
    unfold PyErr_NoMemory in Hnm.
    apply bind_Returned in Hnm as (? & s3 & Hset & Hnm).
    apply ret_Returned in Hnm as [_ <-].
    apply PyErr_SetObject_indicator in Hset as [Ht _].
    unfold pending. by rewrite Ht.
  - by apply ret_Returned in H as [? _].
Qed.

Lemma type_new_raises metatype a k s s' :
  type_new metatype a k s = Returned NULL s' → pending s'.
Proof.
  unfold type_new. intros H.
  apply bind_Returned in H as (? & s1 & _ & H).
  apply bind_Returned in H as (fields & s2 & _ & H).
  assert (∀ msg s0,
            (PyErr_SetString PyExc_TypeError msg ;; ret NULL)%C s0
              = Returned NULL s' → pending s') as Hmsg.
  { intros msg s0 H0.
    apply bind_Returned in H0 as (? & s3 & Hset & H0).
    apply ret_Returned in H0 as [_ <-].
    by apply PyErr_SetString_pending in Hset. }
  destruct fields as [[[name [|b0 bases]] entries]|]; try by eapply Hmsg.
  destruct (best_base_of b0 bases); [by eapply Hmsg|].
  apply bind_Returned in H as (copied & s3 & Hcopy & H).
  destruct copied;
    [|apply ret_Returned in H as [_ <-]; by eapply host_alloc_raises].
  apply bind_Returned in H as (own & s4 & _ & H).
  destruct (mro_of_bases (b0 :: bases)).
  - apply bind_Returned in H as (inherited & s5 & _ & H).
    apply bind_Returned in H as (self & s6 & _ & H).
    by eapply PyObject_New_raises.
  - apply bind_Returned in H as (allocated & s5 & Hal & H).
    destruct allocated; [by eapply Hmsg|].
    apply ret_Returned in H as [_ <-]. by eapply host_alloc_raises.
Qed.

(** Whatever makes the synthesis of the combined type fail, the [NULL]
    it returns comes with an exception set: the combiner surfaces its
    failure. *)
Lemma error_get_type_combined_raises error other name s s' :
  error_get_type_combined error other name s = Returned NULL s' →
  pending s'.
Proof.
  unfold error_get_type_combined. intros H.
  apply bind_Returned in H as (class_dict & s1 & Hdict & H).
  destruct class_dict as [d|].
  - apply bind_Returned in H as (new_type_args & s2 & Hargs & H).
    apply bind_Returned in H as (? & s3 & Hdec & H).
    apply add_ref_indicator in Hdec as [Ht _].
    destruct new_type_args.
    + apply bind_Returned in H as (new_type & s4 & Hnew & H).
      apply ret_Returned in H as [-> <-].
      by eapply type_new_raises.
    + apply ret_Returned in H as [_ <-].
      unfold pending. rewrite Ht.
      by eapply Py_BuildValue_sOOO_raises.
  - apply ret_Returned in H as [_ <-].
    by eapply PyObject_New_raises.
Qed.

Lemma refusing_call_raises : raises_on_NULL refusing_call.
Proof.
  intros c a k s s' H. unfold refusing_call in H.
  apply bind_Returned in H as (? & s1 & Hset & H).
  apply ret_Returned in H as [_ <-].
  by apply PyErr_SetString_pending in Hset.
Qed.

(* ------------------------------------------------------------------ *)
(** * Properties of [cairo/error.c] *)

Section properties.

Variable cairo_status_to_string : cairo_status_t → string.
Variable tp_str_text : state → addr → string.
Variable host_call : ptr → ptr → ptr → M ptr.

(** ** Failing constructions leave an exception set *)

Lemma error_init_fails self a k s r s' :
  error_init self a k s = Returned r s' → r < 0 → pending s'.
Proof.
  unfold error_init. intros H Hr.
  apply bind_Returned in H as (r0 & s0 & Hbase & H).
  destruct (Z.ltb_spec r0 0).
  - apply ret_Returned in H as [_ <-].
    by eapply BaseException_init_fails.
  - run_inv H. lia.
Qed.

Lemma type_call_raises type t a k s s' :
  type_call type t a k s = Returned NULL s' → pending s'.
Proof.
  unfold type_call, BaseException_new. intros H.
  apply bind_Returned in H as (obj & s1 & Hnew & H).
  apply bind_Returned in Hnew as (self & s0 & Halloc & Hnew).
  destruct self as [self|].
  - run_inv Hnew.
    apply bind_Returned in H as (res & s2 & Hinit & H).
    destruct (Z.ltb_spec res 0); [|by apply ret_Returned in H as [? _]].
    run_inv H.
    match goal with
    | Hd : Py_DECREF _ _ = Returned _ _ |- _ =>
        apply add_ref_indicator in Hd as [Ht _]
    end.
    unfold pending. rewrite Ht.
    destruct (tp_init t); cbn in Hinit;
      first [ by eapply error_init_fails
            | by eapply BaseException_init_fails ].
  - apply ret_Returned in Hnew as [<- <-].
    apply ret_Returned in H as [_ <-].
    by eapply PyObject_New_raises.
Qed.

Lemma PyObject_Call_raises c a k s s' :
  raises_on_NULL host_call →
  PyObject_Call host_call c a k s = Returned NULL s' → pending s'.
Proof.
  intros Hhost. unfold PyObject_Call. intros H.
  apply bind_Returned in H as (o & s0 & _ & H).
  apply bind_Returned in H as (o' & s1 & _ & H).
  destruct c as [type|]; [|by eapply Hhost].
  destruct (ob_data o); try by eapply Hhost.
  destruct (tp_new t); [|by eapply Hhost].
  destruct (tp_init t);
    first [ by eapply type_call_raises | by eapply Hhost ].
Qed.

(** [set_error] never returns without an exception set: either the
    one it built, or the one that made the construction fail. *)
Lemma set_error_pending error_type status s u s' :
  raises_on_NULL host_call →
  set_error cairo_status_to_string host_call error_type status s
    = Returned u s' →
  pending s'.
Proof.
  intros Hhost. unfold set_error. intros H.
  apply bind_Returned in H as (enum & s0 & _ & H).
  apply bind_Returned in H as (arguments & s1 & _ & H).
  apply bind_Returned in H as (v & s2 & Hcall & H).
  apply bind_Returned in H as (? & s3 & Hdec & H).
  apply add_ref_indicator in Hdec as [Ht _].
  destruct v as [v|].
  - apply bind_Returned in H as (type & s4 & Htype & H).
    apply bind_Returned in H as (? & s5 & Hset & H).
    apply add_ref_indicator in H as [Ht' _].
    apply PyErr_SetObject_indicator in Hset as [Ht'' _].
    unfold Py_TYPE in Htype. run_inv Htype.
    unfold pending. by rewrite Ht', Ht''.
  - apply ret_Returned in H as [_ <-].
    unfold pending. rewrite Ht.
    by eapply PyObject_Call_raises.
Qed.

(** With a [NULL] type [set_error] has no defined behaviour:
    [PyObject_Call] dereferences its callable. *)
Lemma set_error_NULL status s :
  set_error cairo_status_to_string host_call NULL status s = Undefined.
Proof.
  unfold set_error, bind.
  destruct (CREATE_INT_ENUM_Status status s) as [enum s1|]; [|done].
  by destruct (Py_BuildValue_sO _ enum s1).
Qed.

Lemma failure_pending status s r s' :
  raises_on_NULL host_call →
  status ≠ CAIRO_STATUS_SUCCESS → curexc_type s = NULL →
  Pycairo_Check_Status cairo_status_to_string host_call status s
    = Returned r s' →
  r = 1 ∧ pending s'.
Proof.
  intros Hhost Hs He. unfold Pycairo_Check_Status, PyErr_Occurred.
  intros H. apply bind_Returned in H as (p & s0 & Hp & H).
  unfold gets in Hp. inversion Hp; subst. rewrite He in H.
  destruct (Z.eqb_spec status CAIRO_STATUS_SUCCESS); [done|].
  apply bind_Returned in H as (? & s1 & Hbody & H).
  apply ret_Returned in H as [<- <-]. split; [done|].
  destruct (status =? CAIRO_STATUS_NO_MEMORY).
  - apply bind_Returned in Hbody as (error & s2 & _ & Hbody).
    apply bind_Returned in Hbody as (suberror & s3 & _ & Hbody).
    apply bind_Returned in Hbody as (? & s4 & Hset & Hdec).
    apply add_ref_indicator in Hdec as [Ht _].
    unfold pending. rewrite Ht. by eapply set_error_pending.
  - destruct ((status =? CAIRO_STATUS_READ_ERROR)
              || (status =? CAIRO_STATUS_WRITE_ERROR)).
    + by eapply PyErr_SetString_pending.
    + apply bind_Returned in Hbody as (error & s2 & _ & Hbody).
      by eapply set_error_pending.
Qed.

(** When the combined type cannot be synthesized, the [NULL] goes
    unchecked into [set_error]. *)
Lemma combined_type_failure_undefined s s1 :
  curexc_type s = NULL →
  error_get_type_combined (Some PycairoError_Type) (Some PyExc_MemoryError)
    "MemoryError" s = Returned NULL s1 →
  Pycairo_Check_Status cairo_status_to_string host_call
    CAIRO_STATUS_NO_MEMORY s = Undefined.
Proof.
  intros He H.
  cbv beta iota delta
    [Pycairo_Check_Status bind PyErr_Occurred gets _Pycairo_Get_Error ret].
  rewrite He.
  change (CAIRO_STATUS_NO_MEMORY =? CAIRO_STATUS_SUCCESS) with false.
  change (CAIRO_STATUS_NO_MEMORY =? CAIRO_STATUS_NO_MEMORY) with true.
  cbv beta iota. rewrite H. by rewrite set_error_NULL.
Qed.

(** ** The three failure branches when the host does not fail *)

Lemma io_error_run s status :
  wf s → faults s = [] → curexc_type s = NULL →
  status = CAIRO_STATUS_READ_ERROR ∨ status = CAIRO_STATUS_WRITE_ERROR →
  ∃ s',
    Pycairo_Check_Status cairo_status_to_string host_call status s
      = Returned 1 s' ∧
    curexc_type s' = Some PyExc_IOError ∧
    type_of s' (curexc_value s') = Some PyUnicode_Type ∧
    text_at s' (curexc_value s') = Some (cairo_status_to_string status) ∧
    PyErr_ExceptionMatches s' PyExc_IOError = true ∧
    PyErr_ExceptionMatches s' PycairoError_Type = false ∧
    wf s'.
Proof.
  intros Hwf Hf He Hs.
  pose proof (first_free_le s Hwf) as Hn.
  pose proof (wf_indicator s Hwf He) as Hv.
  unfold Pycairo_Check_Status.
  assert ((status =? CAIRO_STATUS_SUCCESS) = false) as E1
    by (destruct Hs; subst; reflexivity).
  assert ((status =? CAIRO_STATUS_NO_MEMORY) = false) as E2
    by (destruct Hs; subst; reflexivity).
  assert ((status =? CAIRO_STATUS_READ_ERROR)
          || (status =? CAIRO_STATUS_WRITE_ERROR) = true) as E3
    by (destruct Hs; subst; reflexivity).
  unfold_c. rewrite He, E1, E2, E3. exec Hwf.
  eexists. split; [reflexivity|].
  split; [reflexivity|].
  do 4 (split; [observe Hwf; reflexivity|]).
  wf_after Hwf.
Qed.

Lemma default_run s status :
  wf s → faults s = [] → curexc_type s = NULL →
  status ≠ CAIRO_STATUS_SUCCESS → status ≠ CAIRO_STATUS_NO_MEMORY →
  status ≠ CAIRO_STATUS_READ_ERROR → status ≠ CAIRO_STATUS_WRITE_ERROR →
  ∃ s',
    Pycairo_Check_Status cairo_status_to_string host_call status s
      = Returned 1 s' ∧
    curexc_type s' = Some PycairoError_Type ∧
    type_of s' (curexc_value s') = Some PycairoError_Type ∧
    raised_with s' (status_to_string cairo_status_to_string status) status ∧
    wf s'.
Proof.
  intros Hwf Hf He H0 H1 H2 H3.
  pose proof (first_free_le s Hwf) as Hn.
  pose proof (wf_indicator s Hwf He) as Hv.
  unfold Pycairo_Check_Status.
  unfold_c. rewrite He.
  destruct (Z.eqb_spec status CAIRO_STATUS_SUCCESS); [done|].
  destruct (Z.eqb_spec status CAIRO_STATUS_NO_MEMORY); [done|].
  destruct (Z.eqb_spec status CAIRO_STATUS_READ_ERROR); [done|].
  destruct (Z.eqb_spec status CAIRO_STATUS_WRITE_ERROR); [done|].
  cbn [orb].
  exec Hwf.
  eexists. split; [reflexivity|].
  split; [reflexivity|].
  split; [observe Hwf; reflexivity|].
  split; [|wf_after Hwf].
  eexists _, _, _, _.
  split; [observe Hwf; reflexivity|].
  do 2 (split; [reflexivity|]).
  do 3 (split; [observe Hwf; reflexivity|]). observe Hwf; reflexivity.
Qed.

(** [set_error] does not test the argument tuple it builds: when the
    status value has been built and the message string cannot be —
    the second allocation fails —, [Py_BuildValue] returns [NULL] and
    [PyObject_Call] is handed that [NULL] for its arguments. *)
Lemma argument_failure_undefined s status f :
  wf s → faults s = false :: true :: f → curexc_type s = NULL →
  status ≠ CAIRO_STATUS_SUCCESS → status ≠ CAIRO_STATUS_NO_MEMORY →
  status ≠ CAIRO_STATUS_READ_ERROR → status ≠ CAIRO_STATUS_WRITE_ERROR →
  Pycairo_Check_Status cairo_status_to_string host_call status s
    = Undefined.
Proof.
  intros Hwf Hf He H0 H1 H2 H3.
  pose proof (first_free_le s Hwf) as Hn.
  pose proof (wf_indicator s Hwf He) as Hv.
  unfold Pycairo_Check_Status.
  unfold_c. rewrite He.
  destruct (Z.eqb_spec status CAIRO_STATUS_SUCCESS); [done|].
  destruct (Z.eqb_spec status CAIRO_STATUS_NO_MEMORY); [done|].
  destruct (Z.eqb_spec status CAIRO_STATUS_READ_ERROR); [done|].
  destruct (Z.eqb_spec status CAIRO_STATUS_WRITE_ERROR); [done|].
  cbn [orb].
  exec Hwf. reflexivity.
Qed.

Lemma no_memory_run s :
  wf s → faults s = [] → curexc_type s = NULL →
  ∃ s' T t,
    Pycairo_Check_Status cairo_status_to_string host_call
      CAIRO_STATUS_NO_MEMORY s = Returned 1 s' ∧
    curexc_type s' = Some T ∧
    heap s !! T = None ∧
    type_of s' (curexc_value s') = Some T ∧
    typeobject_at s' T = Some t ∧
    tp_name t = "MemoryError"%string ∧
    tp_bases t = [PycairoError_Type; PyExc_MemoryError] ∧
    tp_mro t = [T; PycairoError_Type; PyExc_MemoryError; PyExc_Exception;
                PyExc_BaseException; PyBaseObject_Type] ∧
    tp_new t = new_BaseException ∧ tp_init t = init_error ∧
    raised_with s'
      (status_to_string cairo_status_to_string CAIRO_STATUS_NO_MEMORY)
      CAIRO_STATUS_NO_MEMORY ∧
    wf s'.
Proof.
  intros Hwf Hf He.
  pose proof (first_free_le s Hwf) as Hn.
  pose proof (wf_indicator s Hwf He) as Hv.
  unfold Pycairo_Check_Status.
  unfold_c. rewrite He.
  exec Hwf.
  eexists _, _, _. split; [reflexivity|].
  split; [reflexivity|].
  split; [apply (wf_fresh s Hwf); lia|].
  split; [observe Hwf; reflexivity|].
  split; [observe Hwf; reflexivity|].
  cbn [tp_name tp_bases tp_mro tp_new tp_init].
  do 5 (split; [reflexivity|]).
  split; [|wf_after Hwf].
  eexists _, _, _, _.
  split; [observe Hwf; reflexivity|].
  do 2 (split; [reflexivity|]).
  do 3 (split; [observe Hwf; reflexivity|]). observe Hwf; reflexivity.
Qed.

(** Well-formedness is an invariant of [Pycairo_Check_Status] (for a
    host whose allocations succeed). *)
Lemma Pycairo_Check_Status_wf status s r s' :
  wf s → faults s = [] →
  Pycairo_Check_Status cairo_status_to_string host_call status s
    = Returned r s' →
  wf s'.
Proof.
  intros Hwf Hf H.
  assert (∀ s'',
            Pycairo_Check_Status cairo_status_to_string host_call status s
              = Returned 1 s'' → wf s'' → wf s') as Hsame.
  { intros s'' H'. rewrite H in H'. by inversion H'; subst. }
  destruct (curexc_type s) as [ty|] eqn:He.
  { unfold Pycairo_Check_Status, PyErr_Occurred, bind, gets in H.
    rewrite He in H. by inversion H; subst. }
  destruct (decide (status = CAIRO_STATUS_SUCCESS)) as [->|H0].
  { unfold Pycairo_Check_Status, PyErr_Occurred, bind, gets in H.
    rewrite He in H. by inversion H; subst. }
  destruct (decide (status = CAIRO_STATUS_NO_MEMORY)) as [->|H1].
  { destruct (no_memory_run s Hwf Hf He)
      as (s'' & T & t & H' & _ & _ & _ & _ & _ & _ & _ & _ & _ & _ & Hwf').
    by eapply Hsame. }
  destruct (decide (status = CAIRO_STATUS_READ_ERROR)) as [H2|H2].
  { destruct (io_error_run s status Hwf Hf He (or_introl H2))
      as (s'' & H' & _ & _ & _ & _ & _ & Hwf').
    by eapply Hsame. }
  destruct (decide (status = CAIRO_STATUS_WRITE_ERROR)) as [H3|H3].
  { destruct (io_error_run s status Hwf Hf He (or_intror H3))
      as (s'' & H' & _ & _ & _ & _ & _ & Hwf').
    by eapply Hsame. }
  destruct (default_run s status Hwf Hf He H0 H1 H2 H3)
    as (s'' & H' & _ & _ & _ & Hwf').
  by eapply Hsame.
Qed.

(** ** The status translator *)

(** The failure signal.  For every status code other than success,
    called with no exception pending, [Pycairo_Check_Status] never
    returns anything but the failure signal [1] with the (single) error
    indicator of the thread set — whatever the host's allocations do —
    and it does return so whenever the host's allocations succeed.  (The
    indicator is one slot, so a set indicator is exactly one pending
    exception.)  When an allocation fails it may not return at all:
    [argument_failure_undefined] above, and
    [combined_type_failure_undefined]. *)
Theorem Pycairo_Check_Status_failure_raises status s :
  raises_on_NULL host_call →
  status ≠ CAIRO_STATUS_SUCCESS →
  curexc_type s = NULL →
  (∀ r s',
     Pycairo_Check_Status cairo_status_to_string host_call status s
       = Returned r s' →
     r = 1 ∧ curexc_type s' ≠ NULL) ∧
  (wf s → faults s = [] →
   ∃ s',
     Pycairo_Check_Status cairo_status_to_string host_call status s
       = Returned 1 s' ∧
     curexc_type s' ≠ NULL).
Proof.
  intros Hhost Hs He. split.
  - intros r s' H. by eapply failure_pending.
  - intros Hwf Hf.
    destruct (decide (status = CAIRO_STATUS_NO_MEMORY)) as [->|H1].
    { destruct (no_memory_run s Hwf Hf He) as (s' & T & t & H & Ht & _).
      exists s'. split; [done|]. by rewrite Ht. }
    destruct (decide (status = CAIRO_STATUS_READ_ERROR)) as [H2|H2].
    { destruct (io_error_run s status Hwf Hf He (or_introl H2))
        as (s' & H & Ht & _).
      exists s'. split; [done|]. by rewrite Ht. }
    destruct (decide (status = CAIRO_STATUS_WRITE_ERROR)) as [H3|H3].
    { destruct (io_error_run s status Hwf Hf He (or_intror H3))
        as (s' & H & Ht & _).
      exists s'. split; [done|]. by rewrite Ht. }
    destruct (default_run s status Hwf Hf He Hs H1 H2 H3)
      as (s' & H & Ht & _).
    exists s'. split; [done|]. by rewrite Ht.
Qed.

(** C2.  With an exception already pending, [Pycairo_Check_Status]
    returns the failure signal for every status code, success included,
    and the whole interpreter state is the one it was called in: the
    pending exception is the same object (same address in
    [curexc_value], same heap). *)
Theorem Pycairo_Check_Status_keeps_pending status s :
  curexc_type s ≠ NULL →
  Pycairo_Check_Status cairo_status_to_string host_call status s
    = Returned 1 s.
Proof.
  intros He. unfold Pycairo_Check_Status, PyErr_Occurred, bind, gets.
  by destruct (curexc_type s).
Qed.

(** C3, amended.  With the success code [Pycairo_Check_Status] leaves
    the interpreter state as it was, and returns the no-failure signal
    [0] when no exception is pending, the failure signal [1] when one
    is. *)
Theorem Pycairo_Check_Status_success s :
  Pycairo_Check_Status cairo_status_to_string host_call
    CAIRO_STATUS_SUCCESS s
  = Returned (if curexc_type s is Some _ then 1 else 0) s.
Proof.
  unfold Pycairo_Check_Status, PyErr_Occurred, bind, gets.
  by destruct (curexc_type s).
Qed.

(** C4.  With the out-of-memory code, no exception pending and a host
    whose allocations succeed, the pending exception is an instance of
    a type [T] that did not exist before the call, named ["MemoryError"],
    whose bases are exactly the library's exception type and the host's
    [MemoryError], in this order, and whose instances are initialised by
    [error_init]; it was constructed from
    [(status_to_string(status), status)]; and it is an instance of both
    bases. *)
Theorem Pycairo_Check_Status_no_memory s :
  wf s → faults s = [] → curexc_type s = NULL →
  ∃ s' T t,
    Pycairo_Check_Status cairo_status_to_string host_call
      CAIRO_STATUS_NO_MEMORY s = Returned 1 s' ∧
    heap s !! T = None ∧
    typeobject_at s' T = Some t ∧
    tp_name t = "MemoryError"%string ∧
    tp_bases t = [PycairoError_Type; PyExc_MemoryError] ∧
    tp_init t = init_error ∧
    curexc_type s' = Some T ∧
    type_of s' (curexc_value s') = Some T ∧
    raised_with s'
      (status_to_string cairo_status_to_string CAIRO_STATUS_NO_MEMORY)
      CAIRO_STATUS_NO_MEMORY ∧
    isinstance s' (curexc_value s') PycairoError_Type = true ∧
    isinstance s' (curexc_value s') PyExc_MemoryError = true.
Proof.
  intros Hwf Hf He.
  destruct (no_memory_run s Hwf Hf He)
    as (s' & T & t & H & Ht & Hnew & Hty & Hat & Hname & Hbases & Hmro
        & _ & Hinit & Hargs & _).
  exists s', T, t. repeat (split; [done|]).
  unfold type_of in Hty. unfold isinstance, PyType_IsSubtype.
  destruct (curexc_value s' ≫= _) as [o|]; [|discriminate].
  cbn in Hty. injection Hty as ->. rewrite Hat, Hmro.
  split; apply bool_decide_eq_true_2; repeat constructor.
Qed.

(** C5.  With the read-error or the write-error code, no exception
    pending and a host whose allocations succeed, the error indicator
    holds the host's [IOError] class itself together with a string, the
    native description [cairo_status_to_string(status)] (the host makes
    the [IOError] instance from the two when the exception is caught);
    the pending exception matches [IOError] and does not match the
    library's exception type. *)
Theorem Pycairo_Check_Status_io_error status s :
  wf s → faults s = [] → curexc_type s = NULL →
  status = CAIRO_STATUS_READ_ERROR ∨ status = CAIRO_STATUS_WRITE_ERROR →
  ∃ s',
    Pycairo_Check_Status cairo_status_to_string host_call status s
      = Returned 1 s' ∧
    curexc_type s' = Some PyExc_IOError ∧
    type_of s' (curexc_value s') = Some PyUnicode_Type ∧
    text_at s' (curexc_value s') = Some (cairo_status_to_string status) ∧
    PyErr_ExceptionMatches s' PyExc_IOError = true ∧
    PyErr_ExceptionMatches s' PycairoError_Type = false.
Proof.
  intros Hwf Hf He Hs.
  destruct (io_error_run s status Hwf Hf He Hs)
    as (s' & H & Ht & Hty & Htext & Hio & Hno & _).
  by exists s'.
Qed.

(** C6.  [status_to_string] gives the two binding-specific messages for
    the invalid-restore and invalid-pop-group codes, which name
    [Context.save]/[Context.restore] and
    [Context.push_group]/[Context.pop_group]; for every other code it is
    the native [cairo_status_to_string]. *)
Theorem status_to_string_describe status :
  status ≠ CAIRO_STATUS_INVALID_RESTORE →
  status ≠ CAIRO_STATUS_INVALID_POP_GROUP →
  status_to_string cairo_status_to_string status
    = cairo_status_to_string status ∧
  status_to_string cairo_status_to_string CAIRO_STATUS_INVALID_RESTORE
    = "Context.restore() without matching Context.save()"%string ∧
  status_to_string cairo_status_to_string CAIRO_STATUS_INVALID_POP_GROUP
    = "Context.pop_group() without matching Context.push_group()"%string.
Proof.
  intros H1 H2. unfold status_to_string.
  destruct (Z.eqb_spec status CAIRO_STATUS_INVALID_RESTORE); [done|].
  destruct (Z.eqb_spec status CAIRO_STATUS_INVALID_POP_GROUP); [done|].
  done.
Qed.

(** ** The structured exception *)

(** When the base constructor rejects the arguments, so does
    [error_init], and nothing else happens. *)
Lemma error_init_base_rejects self a k s r s' :
  BaseException_init self a k s = Returned r s' → r < 0 →
  error_init self a k s = Returned (-1) s'.
Proof.
  intros H Hr. unfold error_init, bind. rewrite H.
  by destruct (Z.ltb_spec r 0); [|lia].
Qed.

(** C7.  Constructing the structured exception on an argument tuple
    (no keywords: what the base constructor accepts) succeeds, stores the
    tuple as [args] like the base constructor does, and sets [status] to
    the second item of the tuple when there is one and to [None]
    otherwise. *)
Theorem error_init_status s self t e a ta items :
  wf s →
  heap s !! self = Some {| ob_type := t; ob_data := ob_error e |} →
  heap s !! a = Some {| ob_type := ta; ob_data := ob_tuple items |} →
  Forall (λ x, is_Some (heap s !! x)) items →
  (∀ old, args (base e) = Some old → is_Some (heap s !! old)) →
  ∃ s',
    error_init (Some self) (Some a) NULL s = Returned 0 s' ∧
    error_at s' (Some self)
      = Some {| base := set_args (Some a) (base e);
                status := Some (default Py_None (items !! 1%nat)) |} ∧
    tuple_at s' (Some a) = Some items.
Proof.
  intros Hwf Hself Ha Hitems Hold.
  assert (self ≠ a) as Hne by congruence.
  assert (self ≠ Py_None) as Hnone.
  { intros ->. rewrite (lookup_static s Py_None _ Hwf eq_refl) in Hself.
    discriminate. }
  destruct e as [[d old n tb cx ca] st]. cbn [args base] in Hold.
  assert (old = NULL ∨ ∃ o oo, old = Some o ∧ heap s !! o = Some oo)
    as [->|(o & oo & -> & Ho)].
  { destruct old as [o|]; [right|by left].
    destruct (Hold o eq_refl) as [oo Hoo]. by exists o, oo. }
  all: destruct items as [|m [|x rest]]; cbn [lookup list_lookup default].
  all: try (apply Forall_cons in Hitems as [_ Hitems];
            apply Forall_cons in Hitems as [[ox Hx] _];
            split_alias x self Hx).
  all: try split_alias o self Ho.
  all: exec Hwf; rewrite ?size_ge_2; exec Hwf.
  all: eexists; split; [reflexivity|]; split; observe Hwf; reflexivity.
Qed.

(** C8.  The string form of a structured exception with at least one
    argument is the string form of its first argument alone, which for a
    string argument is that very string; without arguments it is what
    the base class gives, the empty string. *)
Theorem error_str_message s self t e a ta items :
  heap s !! self = Some {| ob_type := t; ob_data := ob_error e |} →
  args (base e) = Some a →
  heap s !! a = Some {| ob_type := ta; ob_data := ob_tuple items |} →
  (∀ x rest, items = x :: rest →
     error_str tp_str_text (Some self) s
       = PyObject_Str tp_str_text (Some x) s ∧
     ∀ m,
       heap s !! x
         = Some {| ob_type := PyUnicode_Type; ob_data := ob_unicode m |} →
       ∃ s', error_str tp_str_text (Some self) s = Returned (Some x) s' ∧
             text_at s' (Some x) = Some m) ∧
  (items = [] →
     error_str tp_str_text (Some self) s
       = BaseException_str tp_str_text (Some self) s ∧
     BaseException_str tp_str_text (Some self) s
       = PyUnicode_FromString "" s).
Proof.
  intros Hself Hargs Ha. destruct e as [[d b n tb cx ca] st].
  cbn in Hargs. subst b.
  split.
  - intros x rest ->. split.
    + unfold error_str. exec_plain. rewrite size_ge_1. exec_plain.
      reflexivity.
    + intros m Hx.
      unfold error_str. exec_plain. rewrite size_ge_1. exec_plain.
      rewrite bool_decide_eq_true_2 by done. cbn [andb]. exec_plain.
      eexists. split; [reflexivity|]. observe I. reflexivity.
  - intros ->. split; unfold error_str; exec_plain; reflexivity.
Qed.

(** C9.  Assigning to [status] replaces the held value by the new one.
    Deleting it is refused: the setter returns [-1], the exception
    object still holds what it held, and the pending exception is a
    [TypeError] saying so (when its message can be allocated; the host's
    [MemoryError] otherwise). *)
Theorem error_set_status_contract s self t e old :
  wf s →
  heap s !! self = Some {| ob_type := t; ob_data := ob_error e |} →
  status e = Some old → is_Some (heap s !! old) →
  (∀ v, is_Some (heap s !! v) →
     ∃ s', error_set_status (Some self) (Some v) s = Returned 0 s' ∧
           error_at s' (Some self)
             = Some {| base := base e; status := Some v |}) ∧
  (∃ s', error_set_status (Some self) NULL s = Returned (-1) s' ∧
         error_at s' (Some self) = Some e ∧
         curexc_type s' ≠ NULL ∧
         (faults s = [] →
          curexc_type s' = Some PyExc_TypeError ∧
          text_at s' (curexc_value s')
            = Some "Cannot delete attribute"%string)).
Proof.
  intros Hwf Hself Hst [oo Hold].
  destruct e as [b st]. cbn in Hst. subst st.
  pose proof (alive_below s self Hwf ltac:(by rewrite Hself)) as Hlt.
  pose proof (first_free_le s Hwf) as Hn.
  split.
  - intros v [ov Hv].
    split_alias v self Hv; split_alias old self Hold.
    all: exec Hwf.
    all: eexists; split; [reflexivity|]; observe Hwf; reflexivity.
  - pose proof (wf_type_alive s Hwf) as Ht.
    pose proof (wf_value_alive s Hwf) as Hval.
    pose proof (wf_indicator s Hwf) as Hind.
    destruct (curexc_type s) as [ty|] eqn:Ety;
      [destruct (Ht ty eq_refl) as [oty Hty];
       pose proof (alive_below s ty Hwf ltac:(by rewrite Hty))|].
    all: destruct (curexc_value s) as [va|] eqn:Eva;
      [destruct (Hval va eq_refl) as [ova Hva];
       pose proof (alive_below s va Hwf ltac:(by rewrite Hva))|];
      try (specialize (Hind eq_refl); discriminate).
    all: destruct (faults s) as [|[|] f] eqn:Hf.
    all: exec Hwf.
    all: eexists; split; [reflexivity|]; split; [observe Hwf; reflexivity|];
      split; [done|]; intros Hnil; try discriminate;
      split; observe Hwf; reflexivity.
Qed.

End properties.

(* ------------------------------------------------------------------ *)
(** * The properties at concrete inputs *)

(** The failure signal at the invalid-restore code, in the initial
    interpreter. *)
Lemma Pycairo_Check_Status_failure_raises_witness :
  raises_on_NULL refusing_call ∧
  CAIRO_STATUS_INVALID_RESTORE ≠ CAIRO_STATUS_SUCCESS ∧
  curexc_type (initial_state []) = NULL ∧
  wf (initial_state []) ∧
  faults (initial_state []) = [] ∧
  ∃ s',
    Pycairo_Check_Status native_status_to_string refusing_call
      CAIRO_STATUS_INVALID_RESTORE (initial_state []) = Returned 1 s' ∧
    curexc_type s' ≠ NULL.
Proof.
  split; [exact refusing_call_raises|].
  split; [discriminate|].
  split; [reflexivity|].
  split; [apply wf_initial_state|].
  split; [reflexivity|].
  apply (proj2 (Pycairo_Check_Status_failure_raises
                  native_status_to_string refusing_call
                  CAIRO_STATUS_INVALID_RESTORE (initial_state [])
                  refusing_call_raises ltac:(discriminate) eq_refl)).
  - apply wf_initial_state.
  - reflexivity.
Defined.

(** C2 at the write-error code, with a [TypeError] pending. *)
Lemma Pycairo_Check_Status_keeps_pending_witness :
  curexc_type pending_state ≠ NULL ∧
  Pycairo_Check_Status native_status_to_string refusing_call
    CAIRO_STATUS_WRITE_ERROR pending_state = Returned 1 pending_state.
Proof.
  split; [discriminate|].
  apply (Pycairo_Check_Status_keeps_pending
           native_status_to_string refusing_call
           CAIRO_STATUS_WRITE_ERROR pending_state).
  discriminate.
Defined.

(** C3 as stated fails with an exception pending: the success code then
    gets the failure signal, not the no-failure signal. *)
Lemma Pycairo_Check_Status_success_counterexample :
  Pycairo_Check_Status native_status_to_string refusing_call
    CAIRO_STATUS_SUCCESS pending_state = Returned 1 pending_state ∧
  ¬ ∃ s',
      Pycairo_Check_Status native_status_to_string refusing_call
        CAIRO_STATUS_SUCCESS pending_state = Returned 0 s'.
Proof.
  split; [vm_compute; reflexivity|].
  intros [s' H]. vm_compute in H. discriminate.
Qed.

(** C4 in the initial interpreter. *)
Lemma Pycairo_Check_Status_no_memory_witness :
  wf (initial_state []) ∧
  faults (initial_state []) = [] ∧
  curexc_type (initial_state []) = NULL ∧
  ∃ s',
    Pycairo_Check_Status native_status_to_string refusing_call
      CAIRO_STATUS_NO_MEMORY (initial_state []) = Returned 1 s' ∧
    raised_with s' "out of memory" CAIRO_STATUS_NO_MEMORY ∧
    isinstance s' (curexc_value s') PycairoError_Type = true ∧
    isinstance s' (curexc_value s') PyExc_MemoryError = true.
Proof.
  split; [apply wf_initial_state|].
  split; [reflexivity|].
  split; [reflexivity|].
  destruct (Pycairo_Check_Status_no_memory
              native_status_to_string refusing_call (initial_state [])
              (wf_initial_state []) eq_refl eq_refl)
    as (s' & T & t & H & _ & _ & _ & _ & _ & _ & _ & Hargs & H1 & H2).
  exists s'. by repeat split.
Defined.

(** C5 at the read-error code, in the initial interpreter. *)
Lemma Pycairo_Check_Status_io_error_witness :
  wf (initial_state []) ∧
  faults (initial_state []) = [] ∧
  curexc_type (initial_state []) = NULL ∧
  ∃ s',
    Pycairo_Check_Status native_status_to_string refusing_call
      CAIRO_STATUS_READ_ERROR (initial_state []) = Returned 1 s' ∧
    curexc_type s' = Some PyExc_IOError ∧
    text_at s' (curexc_value s')
      = Some "error while reading from input stream"%string ∧
    PyErr_ExceptionMatches s' PycairoError_Type = false.
Proof.
  split; [apply wf_initial_state|].
  split; [reflexivity|].
  split; [reflexivity|].
  destruct (Pycairo_Check_Status_io_error
              native_status_to_string refusing_call
              CAIRO_STATUS_READ_ERROR (initial_state [])
              (wf_initial_state []) eq_refl eq_refl (or_introl eq_refl))
    as (s' & H & Ht & _ & Htext & _ & Hno).
  exists s'. by repeat split.
Defined.

(** C6 at the out-of-memory code, with the native table. *)
Lemma status_to_string_describe_witness :
  CAIRO_STATUS_NO_MEMORY ≠ CAIRO_STATUS_INVALID_RESTORE ∧
  CAIRO_STATUS_NO_MEMORY ≠ CAIRO_STATUS_INVALID_POP_GROUP ∧
  status_to_string native_status_to_string CAIRO_STATUS_NO_MEMORY
    = "out of memory"%string.
Proof.
  split; [discriminate|].
  split; [discriminate|].
  apply (proj1 (status_to_string_describe native_status_to_string
                  CAIRO_STATUS_NO_MEMORY
                  ltac:(discriminate) ltac:(discriminate))).
Defined.

(** The two overridden messages are not the native ones. *)
Example status_to_string_overrides_differ :
  status_to_string native_status_to_string CAIRO_STATUS_INVALID_RESTORE
    ≠ native_status_to_string CAIRO_STATUS_INVALID_RESTORE ∧
  status_to_string native_status_to_string CAIRO_STATUS_INVALID_POP_GROUP
    ≠ native_status_to_string CAIRO_STATUS_INVALID_POP_GROUP.
Proof. split; vm_compute; discriminate. Qed.

(** C7 on the fresh instance at 22 and the tuple [("boom", 42)] at 19:
    [status] becomes the object at 18, the integer 42. *)
Lemma error_init_status_witness :
  wf boom_state ∧
  ∃ s',
    error_init (Some 22%positive) (Some 19%positive) NULL boom_state
      = Returned 0 s' ∧
    error_at s' (Some 22%positive)
      = Some {| base := only_args (Some 19%positive);
                status := Some 18%positive |} ∧
    long_at boom_state (Some 18%positive) = Some 42.
Proof.
  split; [apply wf_boom_state|].
  destruct (error_init_status boom_state 22%positive PycairoError_Type
              {| base := only_args (Some 19%positive); status := NULL |}
              19%positive PyTuple_Type [17%positive; 18%positive]
              wf_boom_state eq_refl eq_refl)
    as (s' & H & He & _).
  - repeat constructor; vm_compute; eauto.
  - intros old [= <-]. vm_compute. eauto.
  - exists s'. by repeat split.
Defined.

(** [Error("boom", 42)] and [Error("boom")], constructed by calling the
    type: the [status] attribute reads 42, respectively [None]. *)
Example error_boom_42 :
  ∃ self s',
    PyObject_Call refusing_call (Some PycairoError_Type) (Some 19%positive)
      NULL boom_state = Returned self s' ∧
    ∃ v s'', error_get_status self s' = Returned v s'' ∧
             long_at s'' v = Some 42.
Proof. eexists _, _. split; [vm_compute; reflexivity|].
  eexists _, _. split; vm_compute; reflexivity. Qed.

Example error_boom_alone :
  ∃ self s',
    PyObject_Call refusing_call (Some PycairoError_Type) (Some 20%positive)
      NULL boom_state = Returned self s' ∧
    ∃ s'', error_get_status self s' = Returned (Some Py_None) s''.
Proof. eexists _, _. split; [vm_compute; reflexivity|].
  eexists. vm_compute; reflexivity. Qed.

(** C8 on [Error("boom", 42)] at 23: its string form is the object at
    17, the string ["boom"]. *)
Lemma error_str_message_witness :
  ∃ s',
    error_str plain_text (Some 23%positive) boom_state
      = Returned (Some 17%positive) s' ∧
    text_at s' (Some 17%positive) = Some "boom"%string.
Proof.
  apply (proj2 (proj1 (error_str_message plain_text boom_state 23%positive
                  PycairoError_Type
                  {| base := only_args (Some 19%positive);
                     status := Some 18%positive |}
                  19%positive PyTuple_Type [17%positive; 18%positive]
                  eq_refl eq_refl eq_refl)
                 17%positive [18%positive] eq_refl)
           "boom"%string).
  reflexivity.
Defined.

(** C9 on [Error("boom", 42)] at 23: [status] can be set to the string
    at 17, and cannot be deleted. *)
Lemma error_set_status_contract_witness :
  wf boom_state ∧
  (∃ s', error_set_status (Some 23%positive) (Some 17%positive) boom_state
           = Returned 0 s' ∧
         error_at s' (Some 23%positive)
           = Some {| base := only_args (Some 19%positive);
                     status := Some 17%positive |}) ∧
  (∃ s', error_set_status (Some 23%positive) NULL boom_state
           = Returned (-1) s' ∧
         error_at s' (Some 23%positive)
           = Some {| base := only_args (Some 19%positive);
                     status := Some 18%positive |} ∧
         curexc_type s' = Some PyExc_TypeError).
Proof.
  split; [apply wf_boom_state|].
  destruct (error_set_status_contract boom_state 23%positive
              PycairoError_Type
              {| base := only_args (Some 19%positive);
                 status := Some 18%positive |}
              18%positive wf_boom_state eq_refl eq_refl)
    as [Hset (s' & Hdel & Hkept & _ & Htype)].
  - vm_compute. eauto.
  - split.
    + apply (Hset 17%positive). vm_compute. eauto.
    + exists s'. split; [done|]. split; [done|].
      by destruct (Htype eq_refl).
Defined.

(** C1, a failing input: the invalid-restore code — a status other
    than success — with no exception pending and the host out of memory
    at its second allocation.  The status value is built; the message
    string is not, so [Py_BuildValue] returns [NULL] with [MemoryError]
    pending; [set_error] passes that [NULL] on to [PyObject_Call] as
    the argument tuple without a test, and the call has no defined
    behaviour: [Pycairo_Check_Status] does not return the failure
    signal, where the claim has it return it for every status but
    success.  The same holds of every status that is raised as the
    library's own exception, whatever the host does after the failed
    allocation. *)
Theorem Pycairo_Check_Status_argument_failure :
  CAIRO_STATUS_INVALID_RESTORE ≠ CAIRO_STATUS_SUCCESS ∧
  curexc_type (initial_state [false; true]) = NULL ∧
  (∃ enum s1 s2,
     CREATE_INT_ENUM_Status CAIRO_STATUS_INVALID_RESTORE
       (initial_state [false; true]) = Returned (Some enum) s1 ∧
     Py_BuildValue_sO
       (status_to_string native_status_to_string CAIRO_STATUS_INVALID_RESTORE)
       (Some enum) s1 = Returned NULL s2 ∧
     curexc_type s2 = Some PyExc_MemoryError ∧
     PyObject_Call refusing_call (Some PycairoError_Type) NULL NULL s2
       = Undefined) ∧
  Pycairo_Check_Status native_status_to_string refusing_call
    CAIRO_STATUS_INVALID_RESTORE (initial_state [false; true]) = Undefined ∧
  (∀ status f,
     status ≠ CAIRO_STATUS_SUCCESS → status ≠ CAIRO_STATUS_NO_MEMORY →
     status ≠ CAIRO_STATUS_READ_ERROR → status ≠ CAIRO_STATUS_WRITE_ERROR →
     Pycairo_Check_Status native_status_to_string refusing_call status
       (initial_state (false :: true :: f)) = Undefined).
Proof.
  split; [discriminate|]. split; [reflexivity|].
  split.
  { eexists _, _, _. split; [vm_compute; reflexivity|].
    split; [vm_compute; reflexivity|]. split; vm_compute; reflexivity. }
  split; [vm_compute; reflexivity|].
  intros status f H0 H1 H2 H3.
  exact (argument_failure_undefined native_status_to_string refusing_call
           (initial_state (false :: true :: f)) status f
           (wf_initial_state _) eq_refl eq_refl H0 H1 H2 H3).
Qed.

(** C10, the failing input: the out-of-memory code with the host out
    of memory at the first allocation.  [PyDict_New] fails, so
    [error_get_type_combined] returns [NULL] with [MemoryError] pending;
    [Pycairo_Check_Status] passes that [NULL] to [set_error] and on to
    [PyObject_Call], which dereferences it: the call has no defined
    behaviour, where the claim has it return the failure signal with the
    [MemoryError] still pending. *)
Theorem Pycairo_Check_Status_combined_type_failure :
  (∃ s1,
     error_get_type_combined (Some PycairoError_Type)
       (Some PyExc_MemoryError) "MemoryError" (initial_state [true])
       = Returned NULL s1 ∧
     curexc_type s1 = Some PyExc_MemoryError) ∧
  Pycairo_Check_Status native_status_to_string refusing_call
    CAIRO_STATUS_NO_MEMORY (initial_state [true]) = Undefined.
Proof.
  split; [|vm_compute; reflexivity].
  eexists. split; vm_compute; reflexivity.
Qed.

(** The same at every allocation of the type synthesis: the dictionary,
    the three parts of the argument tuple, the copy of the dictionary,
    the type itself. *)
Example combined_type_failure_everywhere :
  Forall
    (λ f, Pycairo_Check_Status native_status_to_string refusing_call
            CAIRO_STATUS_NO_MEMORY (initial_state f) = Undefined)
    [ [true]; [false; true]; [false; false; true];
      [false; false; false; true]; [false; false; false; false; true];
      [false; false; false; false; false; true] ].
Proof. repeat constructor; vm_compute; reflexivity. Qed.

(** And in [set_error], on any branch: when the status value or the
    argument tuple cannot be built, [Py_DECREF(args)] meets [NULL]. *)
Example set_error_argument_failure :
  Pycairo_Check_Status native_status_to_string refusing_call
    CAIRO_STATUS_INVALID_RESTORE (initial_state [true]) = Undefined ∧
  Pycairo_Check_Status native_status_to_string refusing_call
    CAIRO_STATUS_INVALID_RESTORE (initial_state [false; true]) = Undefined.
Proof. split; vm_compute; reflexivity. Qed.

(** The other half of C10 holds: when the tenth allocation of the
    out-of-memory branch fails — the exception object itself, after the
    combined type, the status value and the argument tuple were built —
    the caller gets the failure signal with the host's own [MemoryError]
    pending, nothing else. *)
Example construction_failure_propagates :
  ∃ s',
    Pycairo_Check_Status native_status_to_string refusing_call
      CAIRO_STATUS_NO_MEMORY
      (initial_state [false; false; false; false; false; false; false;
                      false; false; true])
      = Returned 1 s' ∧
    curexc_type s' = Some PyExc_MemoryError ∧
    curexc_value s' = NULL.
Proof. eexists. split; [vm_compute; reflexivity|]. by split. Qed.

(** The combiner also surfaces a rejection by the type constructor:
    [cairo.Error] and [OSError] both extend the layout of
    [BaseException], each in its own way, so no type can have both as
    bases; the result is [NULL] with a [TypeError] set. *)
Example combined_type_layout_conflict :
  ∃ s',
    error_get_type_combined (Some PycairoError_Type) (Some PyExc_IOError)
      "IOError" (initial_state []) = Returned NULL s' ∧
    curexc_type s' = Some PyExc_TypeError ∧
    text_at s' (curexc_value s')
      = Some "multiple bases have instance lay-out conflict"%string.
Proof. eexists. split; [vm_compute; reflexivity|]. by split. Qed.

(** And a base that cannot be subclassed: [NoneType]. *)
Example combined_type_base_refused :
  ∃ s',
    error_get_type_combined (Some PycairoError_Type) (Some _PyNone_Type)
      "NoneError" (initial_state []) = Returned NULL s' ∧
    curexc_type s' = Some PyExc_TypeError ∧
    text_at s' (curexc_value s')
      = Some "type 'NoneType' is not an acceptable base type"%string.
Proof. eexists. split; [vm_compute; reflexivity|]. by split. Qed.

(* ------------------------------------------------------------------ *)
(** * Further properties of [cairo/error.c] *)



Lemma bump_lookup d a r x :
  default 0 (bump d a r !! x)
  = default 0 (r !! x) + (if decide (x = a) then d else 0).
Proof.
  unfold bump. destruct (decide (x = a)) as [->|Hne].
  - rewrite lookup_insert_eq. cbn. lia.
  - rewrite lookup_insert_ne by done. lia.
Qed.

Lemma occurrences_cons a p l :
  occurrences a (p :: l)
  = (if decide (p = Some a) then 1 else 0) + occurrences a l.
Proof.
  unfold occurrences. rewrite filter_cons.
  destruct (decide (p = Some a)); cbn [length]; lia.
Qed.

Lemma occurrences_nil a : occurrences a [] = 0.
Proof. reflexivity. Qed.

(** The count of any object after a run, from the increments and
    decrements the run made. *)
Ltac count :=
  unfold refcount, set_refcnt; cbn [ob_refcnt];
  rewrite ?bump_lookup, ?occurrences_cons, ?occurrences_nil;
  repeat case_decide; simplify_eq; try lia; try congruence.

(** What was in the heap before a run that only allocated is still
    there. *)
Ltac heap_grows Hwf :=
  cbn [heap];
  repeat (apply insert_subseteq_r; [apply (wf_fresh _ Hwf); lia|]);
  reflexivity.




Lemma state_eq s1 s2 :
  heap s1 = heap s2 → ob_refcnt s1 = ob_refcnt s2 →
  next_addr s1 = next_addr s2 → curexc_type s1 = curexc_type s2 →
  curexc_value s1 = curexc_value s2 → faults s1 = faults s2 →
  s1 = s2.
Proof. destruct s1, s2; cbn; congruence. Qed.

Lemma bind_run {A B} (m : M A) (k : A → M B) s a s1 :
  m s = Returned a s1 → bind m k s = k a s1.
Proof. unfold bind. by intros ->. Qed.


(** ** The [status] attribute *)

(** X8.  Reading the [status] attribute of an initialised structured
    exception returns the held object with one more reference to it —
    the caller's — and changes nothing else: no object, no other count,
    not the error indicator. *)
Theorem error_get_status_new_reference s self t e st :
  heap s !! self = Some {| ob_type := t; ob_data := ob_error e |} →
  status e = Some st → is_Some (heap s !! st) →
  ∃ s',
    error_get_status (Some self) s = Returned (Some st) s' ∧
    heap s' = heap s ∧
    curexc_type s' = curexc_type s ∧ curexc_value s' = curexc_value s ∧
    ∀ x, refcount s' x = refcount s x + occurrences x [Some st].
Proof.
  intros Hself Hst [o Ho]. destruct e as [b ost]. cbn in Hst. subst ost.
  split_alias st self Ho.
  all: exec_plain.
  all: eexists; split; [reflexivity|]; do 3 (split; [reflexivity|]).
  all: intros x; count.
Qed.


(** X10.  What is assigned to the [status] attribute is what is read
    back from it afterwards. *)
Theorem error_set_get_status s self t e old v :
  heap s !! self = Some {| ob_type := t; ob_data := ob_error e |} →
  status e = Some old → is_Some (heap s !! old) → is_Some (heap s !! v) →
  ∃ s' s'',
    error_set_status (Some self) (Some v) s = Returned 0 s' ∧
    error_get_status (Some self) s' = Returned (Some v) s''.
Proof.
  intros Hself Hst [oo Hold] [ov Hv].
  destruct e as [b ost]. cbn in Hst. subst ost.
  split_alias v self Hv; split_alias old self Hold.
  all: exec_plain.
  all: eexists _, _; split; [reflexivity|].
  all: exec_plain; reflexivity.
Qed.

(** X11.  Both accessors of [status] use the field without a check for
    [NULL]: on an exception object whose [status] was never set (after
    [tp_new], before [tp_init]) or was cleared, reading the attribute
    and assigning to it have no defined behaviour. *)
Theorem status_accessors_need_init s self t e :
  heap s !! self = Some {| ob_type := t; ob_data := ob_error e |} →
  status e = NULL →
  error_get_status (Some self) s = Undefined ∧
  ∀ value, error_set_status (Some self) (Some value) s = Undefined.
Proof.
  intros Hself Hst. destruct e as [b ost]. cbn in Hst. subst ost.
  split; [|intros value]; exec_plain; reflexivity.
Qed.

(** ** The constructor *)



(** ** The hooks of the cyclic collector *)




Lemma Py_VISIT_counting p g rest s :
  Py_VISIT p (counting_visit g) rest s
  = rest (set_refcnt
            (from_option (λ a, g a (ob_refcnt s)) (ob_refcnt s) p) s).
Proof.
  destruct p as [a|]; cbn [from_option].
  - reflexivity.
  - unfold Py_VISIT. f_equal. by destruct s.
Qed.

Lemma base_field_run self f s t b st :
  heap s !! self
    = Some {| ob_type := t;
              ob_data := ob_error {| base := b; status := st |} |} →
  base_field (Some self) f s = Returned (field_of f b) s.
Proof. intros Hself. unfold base_field, bind, deref. by rewrite Hself. Qed.

(** [error_traverse] under a visitor that keeps books. *)
Lemma error_traverse_run s self t e g :
  heap s !! self = Some {| ob_type := t; ob_data := ob_error e |} →
  error_traverse (Some self) (counting_visit g) s
  = Returned 0
      (set_refcnt (foldl (λ r a, g a r) (ob_refcnt s) (referents e)) s).
Proof.
  intros Hself. destruct e as [b st].
  unfold error_traverse.
  erewrite bind_run
    by (unfold get_error, bind, deref; rewrite Hself; reflexivity).
  cbn [status]. rewrite Py_VISIT_counting.
  unfold BaseException_traverse.
  do 6 (erewrite bind_run by (by eapply base_field_run);
        rewrite Py_VISIT_counting).
  unfold ret. f_equal. destruct b as [d a nt tb cx ca].
  apply state_eq;
    unfold referents, owned;
    cbn [set_refcnt heap ob_refcnt next_addr curexc_type
         curexc_value faults field_of dict args notes traceback context
         cause base status map];
    try reflexivity.
  destruct st, d, a, nt, tb, ca, cx; reflexivity.
Qed.





(** X12.  [error_traverse] shows the visitor the references the
    exception holds and nothing else: [status] first, then those of the
    base part as the host's traversal goes through them ([dict],
    [args], [notes], [traceback], [cause], [context]), each when it is
    set; it returns 0 when the visitor always does.  When the visitor
    answers something other than 0 on [status], the traversal stops
    there and returns that answer. *)
Theorem error_traverse_visits s self t e g :
  heap s !! self = Some {| ob_type := t; ob_data := ob_error e |} →
  error_traverse (Some self) (counting_visit g) s
    = Returned 0
        (set_refcnt (foldl (λ r a, g a r) (ob_refcnt s) (referents e)) s) ∧
  ∀ visit st r s1,
    status e = Some st → visit (Some st) s = Returned r s1 → r ≠ 0 →
    error_traverse (Some self) visit s = Returned r s1.
Proof.
  intros Hself. split; [by eapply error_traverse_run|].
  intros visit st r s1 Hst Hvisit Hr.
  destruct e as [b ost]. cbn in Hst. subst ost.
  unfold error_traverse.
  erewrite bind_run
    by (unfold get_error, bind, deref; rewrite Hself; reflexivity).
  cbn [status]. unfold Py_VISIT, bind. rewrite Hvisit.
  by destruct (Z.eqb_spec r 0).
Qed.




(** ** The status translator and what it calls *)

Section further_properties.

Variable cairo_status_to_string : cairo_status_t → string.
Variable host_call : ptr → ptr → ptr → M ptr.

(** The two ways [Pycairo_Check_Status] returns. *)
Lemma check_status_cases status s r s' :
  Pycairo_Check_Status cairo_status_to_string host_call status s
    = Returned r s' →
  (r = 0 ∧ status = CAIRO_STATUS_SUCCESS ∧ curexc_type s = NULL ∧ s' = s) ∨
  (r = 1 ∧ (curexc_type s ≠ NULL ∧ s' = s ∨
            curexc_type s = NULL ∧ status ≠ CAIRO_STATUS_SUCCESS)).
Proof.
  unfold Pycairo_Check_Status, PyErr_Occurred. intros H.
  apply bind_Returned in H as (p & s0 & Hp & H).
  unfold gets in Hp. inversion Hp; subst. clear Hp.
  destruct (curexc_type s0) as [ty|].
  { apply ret_Returned in H as [<- <-]. right. split; [done|]. by left. }
  destruct (Z.eqb_spec status CAIRO_STATUS_SUCCESS) as [->|Hs].
  { apply ret_Returned in H as [<- <-]. by left. }
  apply bind_Returned in H as (? & s1 & _ & H).
  apply ret_Returned in H as [<- <-].
  right. split; [done|]. by right.
Qed.

(** A failure signal comes with an exception pending. *)
Lemma check_status_1_pending status s s' :
  raises_on_NULL host_call →
  Pycairo_Check_Status cairo_status_to_string host_call status s
    = Returned 1 s' →
  curexc_type s' ≠ NULL.
Proof.
  intros Hhost H.
  destruct (check_status_cases _ _ _ _ H)
    as [(? & _)|(_ & [[Hp ->]|[He Hs]])]; [lia|done|].
  by destruct (failure_pending cairo_status_to_string host_call
                 status s 1 s' Hhost Hs He H).
Qed.

(** With nothing pending and a host whose allocations succeed, every
    status but success gets the failure signal. *)
Lemma check_status_fails status s :
  wf s → faults s = [] → curexc_type s = NULL →
  status ≠ CAIRO_STATUS_SUCCESS →
  ∃ s',
    Pycairo_Check_Status cairo_status_to_string host_call status s
      = Returned 1 s' ∧
    curexc_type s' ≠ NULL.
Proof.
  intros Hwf Hf He H0.
  destruct (decide (status = CAIRO_STATUS_NO_MEMORY)) as [->|H1].
  { destruct (no_memory_run cairo_status_to_string host_call s Hwf Hf He)
      as (s' & T & t & H & Ht & _). exists s'. by rewrite Ht. }
  destruct (decide (status = CAIRO_STATUS_READ_ERROR)) as [H2|H2].
  { destruct (io_error_run cairo_status_to_string host_call s status
                Hwf Hf He (or_introl H2)) as (s' & H & Ht & _).
    exists s'. by rewrite Ht. }
  destruct (decide (status = CAIRO_STATUS_WRITE_ERROR)) as [H3|H3].
  { destruct (io_error_run cairo_status_to_string host_call s status
                Hwf Hf He (or_intror H3)) as (s' & H & Ht & _).
    exists s'. by rewrite Ht. }
  destruct (default_run cairo_status_to_string host_call s status
              Hwf Hf He H0 H1 H2 H3) as (s' & H & Ht & _).
  exists s'. by rewrite Ht.
Qed.

Lemma check_status_pending status s :
  curexc_type s ≠ NULL →
  Pycairo_Check_Status cairo_status_to_string host_call status s
    = Returned 1 s.
Proof.
  intros Hp. unfold Pycairo_Check_Status, PyErr_Occurred, bind, gets.
  by destruct (curexc_type s).
Qed.

Lemma check_status_success s :
  curexc_type s = NULL →
  Pycairo_Check_Status cairo_status_to_string host_call
    CAIRO_STATUS_SUCCESS s = Returned 0 s.
Proof.
  intros He. unfold Pycairo_Check_Status, PyErr_Occurred, bind, gets.
  by rewrite He.
Qed.

(** X1.  [Pycairo_Check_Status] returns 0 when the status is the
    success code and no exception is pending, and leaves the
    interpreter as it found it; it returns 1 at once when an exception
    is pending; it returns 1 for every other status when nothing is
    pending and the host's allocations succeed.  Whatever the
    allocations do, it returns nothing but 0 and 1, and 0 only in the
    first case. *)
Theorem Pycairo_Check_Status_no_failure_signal status s :
  (status = CAIRO_STATUS_SUCCESS → curexc_type s = NULL →
   Pycairo_Check_Status cairo_status_to_string host_call status s
     = Returned 0 s) ∧
  (curexc_type s ≠ NULL →
   Pycairo_Check_Status cairo_status_to_string host_call status s
     = Returned 1 s) ∧
  (status ≠ CAIRO_STATUS_SUCCESS → curexc_type s = NULL →
   wf s → faults s = [] →
   ∃ s',
     Pycairo_Check_Status cairo_status_to_string host_call status s
       = Returned 1 s') ∧
  (∀ r s',
     Pycairo_Check_Status cairo_status_to_string host_call status s
       = Returned r s' →
     (r = 0 ∨ r = 1) ∧
     (r = 0 → status = CAIRO_STATUS_SUCCESS ∧ curexc_type s = NULL ∧ s' = s)).
Proof.
  split; [intros -> He; by apply check_status_success|].
  split; [apply check_status_pending|].
  split.
  { intros H0 He Hwf Hf.
    destruct (check_status_fails status s Hwf Hf He H0) as (s' & H & _).
    by exists s'. }
  intros r s' H.
  destruct (check_status_cases _ _ _ _ H)
    as [(-> & -> & He & ->)|(-> & _)].
  - split; [by left|done].
  - split; [by right|]. intros. lia.
Qed.

(** X2.  Once [Pycairo_Check_Status] has signalled a failure, every
    later call signals a failure too, for any status, and changes
    nothing: the first exception stays the pending one until the caller
    clears it. *)
Theorem Pycairo_Check_Status_first_failure_wins status status' s s1 :
  raises_on_NULL host_call →
  Pycairo_Check_Status cairo_status_to_string host_call status s
    = Returned 1 s1 →
  Pycairo_Check_Status cairo_status_to_string host_call status' s1
    = Returned 1 s1.
Proof.
  intros Hhost H.
  pose proof (check_status_1_pending status s s1 Hhost H) as Hp.
  unfold Pycairo_Check_Status, PyErr_Occurred, bind, gets.
  by destruct (curexc_type s1).
Qed.

(** X3.  A status that is neither success, nor out of memory, nor a
    read or write error raises the library's own exception class
    itself: an instance of exactly [cairo.Error], constructed from the
    message of the status and its status value.  The pending exception
    is caught as [Exception], and neither as [MemoryError] nor as
    [IOError]. *)
Theorem Pycairo_Check_Status_library_error status s :
  wf s → faults s = [] → curexc_type s = NULL →
  status ≠ CAIRO_STATUS_SUCCESS → status ≠ CAIRO_STATUS_NO_MEMORY →
  status ≠ CAIRO_STATUS_READ_ERROR → status ≠ CAIRO_STATUS_WRITE_ERROR →
  ∃ s',
    Pycairo_Check_Status cairo_status_to_string host_call status s
      = Returned 1 s' ∧
    type_of s' (curexc_value s') = Some PycairoError_Type ∧
    curexc_type s' = Some PycairoError_Type ∧
    raised_with s' (status_to_string cairo_status_to_string status) status ∧
    PyErr_ExceptionMatches s' PyExc_Exception = true ∧
    PyErr_ExceptionMatches s' PyExc_MemoryError = false ∧
    PyErr_ExceptionMatches s' PyExc_IOError = false.
Proof.
  intros Hwf Hf He H0 H1 H2 H3.
  destruct (default_run cairo_status_to_string host_call s status
              Hwf Hf He H0 H1 H2 H3) as (s' & H & Ht & Hty & Hargs & Hwf').
  exists s'. do 4 (split; [done|]).
  unfold PyErr_ExceptionMatches, PyType_IsSubtype, typeobject_at.
  rewrite Ht.
  rewrite (lookup_static s' PycairoError_Type _ Hwf' eq_refl).
  by repeat split.
Qed.

(** X16.  [Error._check_status], once its argument is read: on the
    success code with no exception pending it returns [None] with one
    new reference to it and nothing else changed; with an exception
    pending it returns [NULL] and changes nothing; on every other
    status, with nothing pending and a host whose allocations succeed,
    it returns [NULL] with an exception pending.  Whatever the
    allocations do, what it returns is [NULL] with an exception pending
    or [None] with none pending. *)
Theorem error_check_status_result status s :
  (status = CAIRO_STATUS_SUCCESS → curexc_type s = NULL →
   is_Some (heap s !! Py_None) →
   error_check_status cairo_status_to_string host_call status s
     = Returned (Some Py_None)
         (set_refcnt (bump 1 Py_None (ob_refcnt s)) s)) ∧
  (curexc_type s ≠ NULL →
   error_check_status cairo_status_to_string host_call status s
     = Returned NULL s) ∧
  (status ≠ CAIRO_STATUS_SUCCESS → curexc_type s = NULL →
   wf s → faults s = [] →
   ∃ s',
     error_check_status cairo_status_to_string host_call status s
       = Returned NULL s' ∧
     curexc_type s' ≠ NULL) ∧
  (raises_on_NULL host_call →
   ∀ r s',
     error_check_status cairo_status_to_string host_call status s
       = Returned r s' →
     r = NULL ∧ curexc_type s' ≠ NULL ∨
     r = Some Py_None ∧ curexc_type s' = NULL).
Proof.
  split.
  { intros -> He [o Ho]. unfold error_check_status, bind.
    rewrite (check_status_success s He).
    change (0 =? 0) with true. cbv iota.
    unfold Py_INCREF, add_ref. by rewrite Ho. }
  split.
  { intros Hp. unfold error_check_status, bind.
    by rewrite (check_status_pending status s Hp). }
  split.
  { intros H0 He Hwf Hf.
    destruct (check_status_fails status s Hwf Hf He H0) as (s' & H & Hp).
    exists s'. split; [|done].
    unfold error_check_status, bind. by rewrite H. }
  intros Hhost r s' H. unfold error_check_status in H.
  apply bind_Returned in H as (failed & s1 & Hrun & H).
  destruct (check_status_cases _ _ _ _ Hrun)
    as [(-> & -> & He & ->)|(-> & _)].
  - change (0 =? 0) with true in H. cbv iota in H.
    apply bind_Returned in H as (? & s2 & Hinc & H).
    apply ret_Returned in H as [<- <-].
    apply add_ref_indicator in Hinc as [Ht _].
    right. split; [done|]. by rewrite Ht.
  - change (1 =? 0) with false in H. cbv iota in H.
    apply ret_Returned in H as [<- <-].
    left. split; [done|]. by eapply check_status_1_pending.
Qed.

(** X7.  Calling [cairo.Error], or any class that inherits its layout
    and its slots, on an argument tuple builds a new object of exactly
    that class, whose [args] is the tuple and whose [status] attribute
    then reads the second argument when there is one and [None]
    otherwise; no existing object is changed and no exception is
    raised. *)
Theorem Error_call_then_status s T mt ty a ta items :
  wf s → faults s = [] →
  heap s !! T = Some {| ob_type := mt; ob_data := ob_typeobject ty |} →
  tp_new ty = new_BaseException → tp_init ty = init_error →
  tp_layout ty = LPycairoError →
  heap s !! a = Some {| ob_type := ta; ob_data := ob_tuple items |} →
  Forall (λ x, is_Some (heap s !! x)) items →
  ∃ v s' s'',
    PyObject_Call host_call (Some T) (Some a) NULL s = Returned (Some v) s' ∧
    heap s !! v = None ∧
    type_of s' (Some v) = Some T ∧
    error_at s' (Some v)
      = Some {| base := only_args (Some a);
                status := Some (default Py_None (items !! 1%nat)) |} ∧
    heap s ⊆ heap s' ∧
    curexc_type s' = curexc_type s ∧
    error_get_status (Some v) s'
      = Returned (Some (default Py_None (items !! 1%nat))) s''.
Proof.
  intros Hwf Hf HT Hnew Hinit Hlay Ha Hitems.
  destruct ty as [nm lay bt nw ini bs bss mro own]. cbn in Hnew, Hinit, Hlay.
  subst nw ini lay.
  pose proof (alive_below s T Hwf ltac:(by rewrite HT)) as HltT.
  pose proof (alive_below s a Hwf ltac:(by rewrite Ha)) as Hlta.
  pose proof (first_free_le s Hwf) as Hn.
  destruct items as [|m [|x rest]]; cbn [lookup list_lookup default].
  all: try (apply Forall_cons in Hitems as [_ Hitems];
            apply Forall_cons in Hitems as [[ox Hx] _];
            pose proof (alive_below s x Hwf ltac:(by rewrite Hx))).
  all: exec Hwf; rewrite ?size_ge_2; exec Hwf.
  all: eexists _, _, _; split; [reflexivity|].
  all: split; [apply (wf_fresh _ Hwf); lia|].
  all: do 2 (split; [observe Hwf; reflexivity|]).
  all: split; [heap_grows Hwf|]; split; [reflexivity|].
  all: exec Hwf; reflexivity.
Qed.


End further_properties.


(* ------------------------------------------------------------------ *)
(** * The further properties at concrete inputs *)

(** X1 on the success code, in the initial interpreter and with a
    [TypeError] pending. *)
Lemma Pycairo_Check_Status_no_failure_signal_witness :
  Pycairo_Check_Status native_status_to_string refusing_call
    CAIRO_STATUS_SUCCESS (initial_state []) = Returned 0 (initial_state []) ∧
  Pycairo_Check_Status native_status_to_string refusing_call
    CAIRO_STATUS_SUCCESS pending_state = Returned 1 pending_state.
Proof.
  split.
  - apply (proj1 (Pycairo_Check_Status_no_failure_signal
                    native_status_to_string refusing_call
                    CAIRO_STATUS_SUCCESS (initial_state []))); reflexivity.
  - apply (proj1 (proj2 (Pycairo_Check_Status_no_failure_signal
                           native_status_to_string refusing_call
                           CAIRO_STATUS_SUCCESS pending_state))).
    discriminate.
Defined.

(** X2: a write error after an invalid restore leaves the exception of
    the invalid restore pending. *)
Lemma Pycairo_Check_Status_first_failure_wins_witness :
  raises_on_NULL refusing_call ∧
  ∃ s1,
    Pycairo_Check_Status native_status_to_string refusing_call
      CAIRO_STATUS_INVALID_RESTORE (initial_state []) = Returned 1 s1 ∧
    Pycairo_Check_Status native_status_to_string refusing_call
      CAIRO_STATUS_WRITE_ERROR s1 = Returned 1 s1 ∧
    curexc_type s1 = Some PycairoError_Type.
Proof.
  split; [exact refusing_call_raises|].
  eexists. split; [vm_compute; reflexivity|].
  split; [|reflexivity].
  apply (Pycairo_Check_Status_first_failure_wins
           native_status_to_string refusing_call
           CAIRO_STATUS_INVALID_RESTORE CAIRO_STATUS_WRITE_ERROR
           (initial_state []) _ refusing_call_raises).
  vm_compute. reflexivity.
Defined.

(** X3 at the invalid-restore code, in the initial interpreter. *)
Lemma Pycairo_Check_Status_library_error_witness :
  wf (initial_state []) ∧
  ∃ s',
    Pycairo_Check_Status native_status_to_string refusing_call
      CAIRO_STATUS_INVALID_RESTORE (initial_state []) = Returned 1 s' ∧
    curexc_type s' = Some PycairoError_Type ∧
    raised_with s' "Context.restore() without matching Context.save()"
      CAIRO_STATUS_INVALID_RESTORE ∧
    PyErr_ExceptionMatches s' PyExc_MemoryError = false.
Proof.
  split; [apply wf_initial_state|].
  destruct (Pycairo_Check_Status_library_error
              native_status_to_string refusing_call
              CAIRO_STATUS_INVALID_RESTORE (initial_state [])
              (wf_initial_state []) eq_refl eq_refl
              ltac:(discriminate) ltac:(discriminate)
              ltac:(discriminate) ltac:(discriminate))
    as (s' & H & _ & Hty & Hargs & _ & Hmem & _).
  exists s'. by repeat split.
Defined.



(** X7: [Error("boom", 42)] built by calling [cairo.Error] on the tuple
    at 19; its [status] reads the integer at 18. *)
Lemma Error_call_then_status_witness :
  wf boom_state ∧
  ∃ v s' s'',
    PyObject_Call refusing_call (Some PycairoError_Type) (Some 19%positive)
      NULL boom_state = Returned (Some v) s' ∧
    type_of s' (Some v) = Some PycairoError_Type ∧
    error_get_status (Some v) s' = Returned (Some 18%positive) s'' ∧
    long_at boom_state (Some 18%positive) = Some 42.
Proof.
  split; [apply wf_boom_state|].
  destruct (Error_call_then_status refusing_call boom_state
              PycairoError_Type PyType_Type
              {| tp_name := "cairo.Error"; tp_layout := LPycairoError;
                 tp_basetype := true;
                 tp_new := new_BaseException; tp_init := init_error;
                 tp_base := Some PyExc_Exception;
                 tp_bases := [PyExc_Exception];
                 tp_mro := PycairoError_Type :: exception_mro;
                 tp_dict_init := true |}
              19%positive PyTuple_Type [17%positive; 18%positive]
              wf_boom_state eq_refl eq_refl eq_refl eq_refl eq_refl eq_refl)
    as (v & s' & s'' & H & _ & Hty & _ & _ & _ & Hget).
  - repeat constructor; vm_compute; eauto.
  - exists v, s', s''. by repeat split.
Defined.

(** X8 on [Error("boom", 42)] at 23. *)
Lemma error_get_status_new_reference_witness :
  ∃ s',
    error_get_status (Some 23%positive) boom_state
      = Returned (Some 18%positive) s' ∧
    heap s' = heap boom_state ∧
    refcount s' 18%positive = refcount boom_state 18%positive + 1 ∧
    refcount s' 19%positive = refcount boom_state 19%positive.
Proof.
  destruct (error_get_status_new_reference boom_state 23%positive
              PycairoError_Type
              {| base := only_args (Some 19%positive);
                 status := Some 18%positive |}
              18%positive eq_refl eq_refl)
    as (s' & H & Hheap & _ & _ & Hc).
  - vm_compute. eauto.
  - exists s'. do 2 (split; [done|]). rewrite !Hc. by split.
Defined.


(** X10 on [Error("boom", 42)] at 23, assigned the string at 17. *)
Lemma error_set_get_status_witness :
  ∃ s' s'',
    error_set_status (Some 23%positive) (Some 17%positive) boom_state
      = Returned 0 s' ∧
    error_get_status (Some 23%positive) s' = Returned (Some 17%positive) s''.
Proof.
  apply (error_set_get_status boom_state 23%positive PycairoError_Type
           {| base := only_args (Some 19%positive);
              status := Some 18%positive |}
           18%positive 17%positive eq_refl eq_refl).
  - vm_compute. eauto.
  - vm_compute. eauto.
Defined.

(** X11 on the instance at 22, which [tp_init] has not seen yet. *)
Lemma status_accessors_need_init_witness :
  error_get_status (Some 22%positive) boom_state = Undefined ∧
  error_set_status (Some 22%positive) (Some 18%positive) boom_state
    = Undefined.
Proof.
  destruct (status_accessors_need_init boom_state 22%positive
              PycairoError_Type
              {| base := only_args (Some 19%positive); status := NULL |}
              eq_refl eq_refl) as [Hget Hset].
  split; [exact Hget|exact (Hset 18%positive)].
Defined.

(** X12 on the exception at 25 of [raised_state]: a visitor that adds
    one to what it is shown has seen the integer at 18, the dictionary
    at 24, the tuple at 19 and the exception at 23, in this order. *)
Lemma error_traverse_visits_witness :
  error_traverse (Some 25%positive) (counting_visit (bump 1)) raised_state
    = Returned 0
        (set_refcnt
           (bump 1 23%positive
              (bump 1 19%positive
                 (bump 1 24%positive (bump 1 18%positive ∅))))
           raised_state).
Proof.
  exact (proj1 (error_traverse_visits raised_state 25%positive
                  PycairoError_Type
                  {| base := {| dict := Some 24%positive;
                                args := Some 19%positive;
                                notes := NULL;
                                traceback := NULL;
                                context := Some 23%positive;
                                cause := NULL |};
                     status := Some 18%positive |}
                  (bump 1) eq_refl)).
Defined.




(** X16 on the success code in the initial interpreter: the result is
    [None]; and on the invalid-restore code: the result is [NULL], with
    an exception pending. *)
Lemma error_check_status_result_witness :
  wf (initial_state []) ∧
  error_check_status native_status_to_string refusing_call
    CAIRO_STATUS_SUCCESS (initial_state [])
    = Returned (Some Py_None)
        (set_refcnt (bump 1 Py_None (ob_refcnt (initial_state [])))
           (initial_state [])) ∧
  ∃ s',
    error_check_status native_status_to_string refusing_call
      CAIRO_STATUS_INVALID_RESTORE (initial_state []) = Returned NULL s' ∧
    curexc_type s' ≠ NULL.
Proof.
  split; [apply wf_initial_state|]. split.
  - apply (proj1 (error_check_status_result
                    native_status_to_string refusing_call
                    CAIRO_STATUS_SUCCESS (initial_state [])));
      [reflexivity|reflexivity|vm_compute; eauto].
  - apply (proj1 (proj2 (proj2 (error_check_status_result
                                  native_status_to_string refusing_call
                                  CAIRO_STATUS_INVALID_RESTORE
                                  (initial_state []))))).
    + discriminate.
    + reflexivity.
    + apply wf_initial_state.
    + reflexivity.
Defined.
